(** * vector-search: embedding ingestion and nearest-neighbour retrieval

  A shallow embedding of the Express handlers of [query.js] (the
  [/upload] and [/query] endpoints, and [cosineSimilarity]) and of the
  earlier variant of the same server that has no answer generation.

  JavaScript numbers are IEEE 754 binary64 values: they are modelled by
  Rocq's primitive floats, whose operations are specified against
  [SpecFloat] by the axioms of [FloatAxioms]. *)

From Stdlib Require Import Floats ZArith Bool String List Lia PeanoNat.
Import ListNotations.

Set Warnings "-inexact-float".

(* ================================================================== *)
(** * JavaScript numbers *)
(* ================================================================== *)

Module JSNumber.

Local Open Scope float_scope.

(** The [number] type of the language. *)
Definition number : Set := float.

(** [x > y] of the language; IEEE comparison, false as soon as one side
    is not-a-number. *)
Definition gtb (x y : number) : bool := (y <? x).

(** [x === y] on numbers. *)
Definition strict_eqb (x y : number) : bool := (x =? y).

(** [Number.isNaN]. *)
Definition isNaN (x : number) : bool := is_nan x.

(** A value read from an array: [None] is [undefined], what an index
    past the end yields. *)
Definition value : Set := option number.

(** [ToNumber] as the arithmetic operators apply it to an operand:
    [undefined] becomes not-a-number. *)
Definition ToNumber (v : value) : number :=
  match v with
  | Some x => x
  | None => nan
  end.

(** ** Zeros *)

(** [x === 0]: holds of both signed zeros. *)
Definition is_zero (x : number) : bool := strict_eqb x 0.

(** A zero of either sign, or not-a-number. *)
Definition zero_or_nan (x : number) : Prop := is_zero x = true \/ x = nan.

End JSNumber.

Import JSNumber.
Local Open Scope float_scope.

(* ================================================================== *)
(** * Arrays and [cosineSimilarity] *)
(* ================================================================== *)

Module VectorMath.

(** [Array.prototype.reduce] with an initial value, on a dense array:
    the callback receives the accumulator, the element and its index. *)
Fixpoint reduce_from {A B : Type} (callback : B -> A -> nat -> B)
         (i : nat) (acc : B) (arr : list A) : B :=
  match arr with
  | [] => acc
  | x :: rest => reduce_from callback (S i) (callback acc x i) rest
  end.

Definition reduce {A B : Type} (callback : B -> A -> nat -> B)
           (initialValue : B) (arr : list A) : B :=
  reduce_from callback 0 initialValue arr.

(** [arr[i]]: [undefined] past the end. *)
Definition index (arr : list number) (i : nat) : value := nth_error arr i.

(** The three folds of [cosineSimilarity], under the source's names. *)
Definition dotProduct (vecA vecB : list number) : number :=
  reduce (fun sum a i => sum + a * ToNumber (index vecB i)) 0 vecA.

Definition sumOfSquares (vec : list number) : number :=
  reduce (fun sum val _ => sum + val * val) 0 vec.

Definition magnitude (vec : list number) : number :=
  sqrt (sumOfSquares vec).

Definition cosineSimilarity (vecA vecB : list number) : number :=
  let dotProduct := dotProduct vecA vecB in
  let magnitudeA := magnitude vecA in
  let magnitudeB := magnitude vecB in
  dotProduct / (magnitudeA * magnitudeB).

(** A vector of Euclidean norm exactly zero: every entry is a zero
    (the empty vector included). *)
Definition all_zero (vec : list number) : bool := forallb is_zero vec.

(** ** The dot product, by simultaneous recursion *)

(** What the first fold computes, read off the two arrays in step: once
    [vecB] is exhausted every further product has [undefined] as its
    right operand. *)
Fixpoint dot_from (acc : number) (vecA vecB : list number) : number :=
  match vecA with
  | [] => acc
  | a :: restA =>
      match vecB with
      | [] => dot_from (acc + a * nan) restA []
      | b :: restB => dot_from (acc + a * b) restA restB
      end
  end.

End VectorMath.

(* ================================================================== *)
(** * Stored documents, exceptions and the outside world *)
(* ================================================================== *)

Module Model.

(** A document of the [Embedding] model ([embeddingSchema]): the schema
    declares [embedding] as an array of numbers of any length. *)
Record Doc : Type := {
  documentName : string;
  embedding : list number;
  content : string
}.

(** The MongoDB collection behind the model, in insertion order. *)
Definition collection : Type := list Doc.

(** What a handler can throw or catch. The [catch] of [/upload] tells
    [multer.MulterError] from everything else. *)
Inductive exn : Type :=
| MulterError (message : string)
| OtherError.

Inductive outcome (A : Type) : Type :=
| Returned (a : A)
| Thrown (e : exn).
Arguments Returned {A} a.
Arguments Thrown {A} e.

(** The body handed to [res.json] and the status set before it (200
    when the handler sets none). *)
Record Body : Type := {
  message : string;
  response : option string;
  similarity : option number
}.

Record Response : Type := {
  status : nat;
  body : Body
}.

Definition json (status : nat) (message : string) : Response :=
  {| status := status;
     body := {| message := message; response := None; similarity := None |} |}.

(** The collaborators of the server: file system, PDF parser, embedding
    provider, chat completion, and whether the database answers. Each
    call either returns or throws. *)
Record World : Type := {
  uploadDir : string;
  readFileSync : string -> outcome string;
  pdfParse : string -> outcome string;
  unlinkSync : string -> outcome unit;
  (** [hf.featureExtraction] on the [inputs] given ([None] being
      [undefined]): an array of embeddings. *)
  featureExtraction : option string -> outcome (list (list number));
  (** [openai.chat.completions.create] on the prompt: the message
      contents of the returned [choices]. *)
  chatCompletions : string -> outcome (list string);
  saveFails : Doc -> bool;
  findFails : bool
}.

End Model.

Import Model.

(** ** Handlers as computations over the collection *)

Module Handler.

(** State (the collection) threaded through a computation that may
    throw; the state reached is kept when it throws. *)
Definition M (A : Type) : Type := collection -> outcome A * collection.

Definition ret {A : Type} (a : A) : M A := fun db => (Returned a, db).

Definition throw {A : Type} (e : exn) : M A := fun db => (Thrown e, db).

Definition bind {A B : Type} (m : M A) (k : A -> M B) : M B :=
  fun db =>
    match m db with
    | (Returned a, db') => k a db'
    | (Thrown e, db') => (Thrown e, db')
    end.

(** A call that does not touch the collection ([await]ed or not): its
    outcome, the collection as it was. *)
Definition call {A : Type} (result : outcome A) : M A :=
  fun db => (result, db).

(** [try { body } catch (error) { handler }]. *)
Definition try_catch {A : Type} (body : M A) (handler : exn -> M A) : M A :=
  fun db =>
    match body db with
    | (Returned a, db') => (Returned a, db')
    | (Thrown e, db') => handler e db'
    end.

(** [arr.forEach] whose callback updates the variables [S] it closes
    over. *)
Fixpoint forEach {A S : Type} (callback : S -> A -> outcome S)
         (arr : list A) (vars : S) : outcome S :=
  match arr with
  | [] => Returned vars
  | x :: rest =>
      match callback vars x with
      | Returned vars' => forEach callback rest vars'
      | Thrown e => Thrown e
      end
  end.

(** Mongoose: [save] of a new document inserts it under a fresh [_id];
    [find()] without filter lists the collection. *)
Definition save (w : World) (doc : Doc) : M unit :=
  fun db =>
    if saveFails w doc then (Thrown OtherError, db)
    else (Returned tt, db ++ [doc]).

Definition find (w : World) : M (list Doc) :=
  fun db =>
    if findFails w then (Thrown OtherError, db) else (Returned db, db).

End Handler.

Import Handler.

Declare Scope handler_scope.
Delimit Scope handler_scope with handler.
Notation "x <- m ;; k" := (bind m (fun x => k))
(at level 61, m at next level, right associativity) : handler_scope.
Notation "m ;;; k" := (bind m (fun _ => k))
(at level 61, right associativity) : handler_scope.

Import VectorMath.

(* ================================================================== *)
(** * The linear scan shared by both servers *)
(* ================================================================== *)

Module Retrieval.

(** [cosineSimilarity(queryEmbedding[0], doc.embedding)]: the first
    argument is [undefined] when the provider returned no embedding,
    and [vecA.reduce] then throws a [TypeError]. A stored embedding is
    always an array. *)
Definition call_cosineSimilarity (vecA : option (list number))
           (vecB : list number) : outcome number :=
  match vecA with
  | Some a => Returned (cosineSimilarity a vecB)
  | None => Thrown OtherError
  end.

(** The variables the [forEach] callback closes over: [bestMatch]
    ([None] is [null]) and [highestSimilarity]. *)
Definition Vars : Type := (option Doc * number)%type.

Definition initial : Vars := (None, neg_infinity).

Definition scan_callback (vecA : option (list number)) (vars : Vars)
           (doc : Doc) : outcome Vars :=
  let '(bestMatch, highestSimilarity) := vars in
  match call_cosineSimilarity vecA (embedding doc) with
  | Returned similarity =>
      if gtb similarity highestSimilarity
      then Returned (Some doc, similarity)
      else Returned (bestMatch, highestSimilarity)
  | Thrown e => Thrown e
  end.

Definition scan (vecA : option (list number)) (allEmbeddings : list Doc)
  : outcome Vars :=
  forEach (scan_callback vecA) allEmbeddings initial.

(** The similarity the scan computes for a stored document. *)
Definition score (queryVec : list number) (doc : Doc) : number :=
  cosineSimilarity queryVec (embedding doc).

(** The callback on a query embedding that is there: it cannot throw,
    and is the function [pick] of the variables. *)
Definition pick (queryVec : list number) (vars : Vars) (doc : Doc) : Vars :=
  if gtb (score queryVec doc) (snd vars)
  then (Some doc, score queryVec doc)
  else vars.

End Retrieval.

Import Retrieval.

(* ================================================================== *)
(** * The server of [query.js] *)
(* ================================================================== *)

Module QueryJs.

Local Open Scope string_scope.
Local Open Scope handler_scope.

(** [req.file] as Multer's disk storage fills it: the stored name is
    the original name. *)
Record File : Type := { filename : string }.

(** [path.join(uploadDir, name)]. *)
Definition path_join (dir name : string) : string := dir ++ "/" ++ name.

(** Mongoose's cast of the value given for an array path: a missing
    value takes the path's default, the empty array. *)
Definition castNumbers (v : option (list number)) : list number :=
  match v with
  | Some arr => arr
  | None => []
  end.

(** [choices[0].message.content]: a [TypeError] when there is no
    choice. *)
Definition first_content (choices : list string) : outcome string :=
  match choices with
  | c :: _ => Returned c
  | [] => Thrown OtherError
  end.

Definition upload_catch (error : exn) : Response :=
  match error with
  | MulterError msg => json 400 ("Multer error: " ++ msg)
  | OtherError => json 500 "Error processing the PDF"
  end.

(** [POST /upload]. *)
Definition upload (w : World) (file : option File) : M Response :=
  try_catch
    (match file with
     | None => ret (json 400 "No file uploaded")
     | Some f =>
         let filePath := path_join (uploadDir w) (filename f) in
         dataBuffer <- call (readFileSync w filePath) ;;
         extractedText <- call (pdfParse w dataBuffer) ;;
         call (unlinkSync w filePath) ;;;
         embeddings <- call (featureExtraction w (Some extractedText)) ;;
         let newEmbedding :=
           {| documentName := filename f;
              embedding := castNumbers (nth_error embeddings 0);
              content := extractedText |} in
         save w newEmbedding ;;;
         ret (json 201 "Embedding saved successfully")
     end)
    (fun error => ret (upload_catch error)).

Definition prompt (doc : Doc) (queryText : string) : string :=
  "Based on the document: " ++ content doc ++ ", " ++ queryText.

Definition match_found (doc : Doc) (answer : string)
           (highestSimilarity : number) : Response :=
  {| status := 200;
     body := {| message := "Closest match for your query: " ++ documentName doc;
                response := Some answer;
                similarity := Some highestSimilarity |} |}.

Definition no_match (highestSimilarity : number) : Response :=
  {| status := 200;
     body := {| message := "No match found";
                response := None;
                similarity := Some highestSimilarity |} |}.

Definition query_failed : Response := json 500 "Error processing query".

(** [POST /query]; [queryText] is [req.body.queryText], [None] when
    absent. *)
Definition query (w : World) (queryText : option string) : M Response :=
  try_catch
    (match queryText with
     | None | Some "" => ret (json 400 "Query text is required")
     | Some text =>
         queryEmbedding <- call (featureExtraction w (Some text)) ;;
         allEmbeddings <- find w ;;
         vars <- call (scan (nth_error queryEmbedding 0) allEmbeddings) ;;
         let '(bestMatch, highestSimilarity) := vars in
         match bestMatch with
         | Some doc =>
             choices <- call (chatCompletions w (prompt doc text)) ;;
             answer <- call (first_content choices) ;;
             ret (match_found doc answer highestSimilarity)
         | None => ret (no_match highestSimilarity)
         end
     end)
    (fun _ => ret query_failed).

End QueryJs.

(* ================================================================== *)
(** * The earlier server, without answer generation *)
(* ================================================================== *)

Module EarlierServer.

Local Open Scope string_scope.
Local Open Scope handler_scope.

(** [bestMatch.documentName]: a [TypeError] on [null]. *)
Definition documentName_of (bestMatch : option Doc) : outcome string :=
  match bestMatch with
  | Some doc => Returned (documentName doc)
  | None => Thrown OtherError
  end.

(** [POST /query] of this variant: no check of [queryText], no test of
    [bestMatch]. *)
Definition query (w : World) (queryText : option string) : M Response :=
  try_catch
    (queryEmbedding <- call (featureExtraction w queryText) ;;
     allEmbeddings <- find w ;;
     vars <- call (scan (nth_error queryEmbedding 0) allEmbeddings) ;;
     let '(bestMatch, highestSimilarity) := vars in
     name <- call (documentName_of bestMatch) ;;
     ret {| status := 200;
            body := {| message := "Closest match for your query: " ++ name;
                       response := None;
                       similarity := Some highestSimilarity |} |})
    (fun _ => ret QueryJs.query_failed).

End EarlierServer.

(* ================================================================== *)
(** * Sample worlds *)
(* ================================================================== *)

Module Samples.

Local Open Scope string_scope.

(** Every collaborator answers: the provider returns [embeddings] for
    any text, the chat completion one choice. *)
Definition healthy (embeddings : list (list number)) : World :=
  {| uploadDir := "/srv/uploads";
     readFileSync := fun _ => Returned "%PDF-1.4";
     pdfParse := fun _ => Returned "extracted text";
     unlinkSync := fun _ => Returned tt;
     featureExtraction := fun _ => Returned embeddings;
     chatCompletions := fun _ => Returned ["an answer"];
     saveFails := fun _ => false;
     findFails := false |}.

(** As [healthy], but the embedding provider throws. *)
Definition embedding_down : World :=
  {| uploadDir := "/srv/uploads";
     readFileSync := fun _ => Returned "%PDF-1.4";
     pdfParse := fun _ => Returned "extracted text";
     unlinkSync := fun _ => Returned tt;
     featureExtraction := fun _ => Thrown OtherError;
     chatCompletions := fun _ => Returned ["an answer"];
     saveFails := fun _ => false;
     findFails := false |}.

(** As [healthy], but the chat completion throws. *)
Definition generation_down (embeddings : list (list number)) : World :=
  {| uploadDir := "/srv/uploads";
     readFileSync := fun _ => Returned "%PDF-1.4";
     pdfParse := fun _ => Returned "extracted text";
     unlinkSync := fun _ => Returned tt;
     featureExtraction := fun _ => Returned embeddings;
     chatCompletions := fun _ => Thrown OtherError;
     saveFails := fun _ => false;
     findFails := false |}.

Definition report : QueryJs.File := {| QueryJs.filename := "report.pdf" |}.

Definition stored (name : string) (vec : list number) (text : string) : Doc :=
  {| documentName := name; embedding := vec; content := text |}.

End Samples.

(* ================================================================== *)
(** * The movie script *)
(* ================================================================== *)

Module MovieScript.

Local Open Scope string_scope.

(** A document of the [Movie] model ([movieSchema]); [embeddings] has the
    empty array as its declared default. *)
Record Movie : Type := {
  title : string;
  description : string;
  genre : list string;
  year : number;
  embeddings : list number
}.

(** The lines the script writes to the console. *)
Inductive line : Type :=
| error_generating_embedding
| embedding_not_generated
| movie_stored (title : string)
| search_results (results : list Movie).

(** What the script talks to: the inference endpoint ([axios.post],
    giving [response.data]), the [movies] collection, and the
    [$search] aggregation of the database. *)
Record Services : Type := {
  post : string -> outcome (list (list number));
  saveMovieFails : Movie -> bool;
  aggregate : list number -> list Movie -> outcome (list Movie)
}.

(** The collection and the console, both only ever appended to. *)
Record State : Type := {
  movies : list Movie;
  console : list line
}.

Definition Script (A : Type) : Type := State -> outcome A * State.

Definition done {A : Type} (a : A) : Script A := fun st => (Returned a, st).

Definition andThen {A B : Type} (m : Script A) (k : A -> Script B)
  : Script B :=
  fun st =>
    match m st with
    | (Returned a, st') => k a st'
    | (Thrown e, st') => (Thrown e, st')
    end.

Definition request {A : Type} (result : outcome A) : Script A :=
  fun st => (result, st).

Definition catching {A : Type} (body : Script A) (handler : exn -> Script A)
  : Script A :=
  fun st =>
    match body st with
    | (Returned a, st') => (Returned a, st')
    | (Thrown e, st') => handler e st'
    end.

(** [console.log] and [console.error]. *)
Definition print (l : line) : Script unit :=
  fun st =>
    (Returned tt, {| movies := movies st; console := console st ++ [l] |}).

Definition saveMovie (s : Services) (movie : Movie) : Script unit :=
  fun st =>
    if saveMovieFails s movie then (Thrown OtherError, st)
    else (Returned tt,
          {| movies := movies st ++ [movie]; console := console st |}).

Definition runSearch (s : Services) (vector : list number)
  : Script (list Movie) :=
  fun st => (aggregate s vector (movies st), st).

(** [createEmbedding]: the first element of the response, and
    [undefined] after logging when the request throws. *)
Definition createEmbedding (s : Services) (text : string)
  : Script (option (list number)) :=
  catching
    (andThen (request (post s text))
             (fun data => done (nth_error data 0)))
    (fun _ => andThen (print error_generating_embedding)
                      (fun _ => done None)).

(** [storeMovieWithEmbedding]. *)
Definition storeMovieWithEmbedding (s : Services) (title description : string)
           (genre : list string) (year : number) : Script unit :=
  let textToEmbed := title ++ " " ++ description in
  andThen (createEmbedding s textToEmbed) (fun embedding =>
  let newMovie := {| title := title;
                     description := description;
                     genre := genre;
                     year := year;
                     embeddings := QueryJs.castNumbers embedding |} in
  andThen (saveMovie s newMovie) (fun _ =>
  print (movie_stored title))).

(** [searchMovies]. *)
Definition searchMovies (s : Services) (queryText : string) : Script unit :=
  andThen (createEmbedding s queryText) (fun queryEmbedding =>
  match queryEmbedding with
  | None => print embedding_not_generated
  | Some vector =>
      andThen (runSearch s vector) (fun results =>
      print (search_results results))
  end).

End MovieScript.

(* ================================================================== *)
(** * More sample worlds *)
(* ================================================================== *)

Module MoreSamples.

Local Open Scope string_scope.

(** As [Samples.healthy], but the chat completion returns no choice. *)
Definition no_choices (embeddings : list (list number)) : World :=
  {| uploadDir := "/srv/uploads";
     readFileSync := fun _ => Returned "%PDF-1.4";
     pdfParse := fun _ => Returned "extracted text";
     unlinkSync := fun _ => Returned tt;
     featureExtraction := fun _ => Returned embeddings;
     chatCompletions := fun _ => Returned [];
     saveFails := fun _ => false;
     findFails := false |}.

(** An inference endpoint that throws, and one that answers with
    [data]; the collection accepts every movie. *)
Definition endpoint_down : MovieScript.Services :=
  {| MovieScript.post := fun _ => Thrown OtherError;
     MovieScript.saveMovieFails := fun _ => false;
     MovieScript.aggregate := fun _ stored => Returned stored |}.

Definition endpoint_up (data : list (list number)) : MovieScript.Services :=
  {| MovieScript.post := fun _ => Returned data;
     MovieScript.saveMovieFails := fun _ => false;
     MovieScript.aggregate := fun _ stored => Returned stored |}.

Definition fresh : MovieScript.State :=
  {| MovieScript.movies := []; MovieScript.console := [] |}.

End MoreSamples.

(* ================================================================== *)
(** * What the caller receives *)
(* ================================================================== *)

Module Wire.

(** A number as [JSON.stringify] writes it: one that is not finite
    (not-a-number or an infinity) is written [null]. *)
Inductive json_number : Type :=
| JNull
| JNumber (x : number).

Definition stringify_number (x : number) : json_number :=
  if is_finite x then JNumber x else JNull.

(** The body on the wire: [res.json] serialises the object it is given
    with [JSON.stringify], which leaves out a field whose value is
    [undefined] ([None]) and writes the others. *)
Record SentBody : Type := {
  sent_message : string;
  sent_response : option string;
  sent_similarity : option json_number
}.

Record Sent : Type := {
  sent_status : nat;
  sent_body : SentBody
}.

Definition send (resp : Response) : Sent :=
  {| sent_status := status resp;
     sent_body :=
       {| sent_message := message (body resp);
          sent_response := response (body resp);
          sent_similarity :=
            option_map stringify_number (similarity (body resp)) |} |}.

End Wire.

(* ================================================================== *)
(** * Facts about numbers *)
(* ================================================================== *)

Module NumberFacts.

(** ** Lifting [SpecFloat] facts to primitive floats *)

Ltac to_spec :=
  apply Prim2SF_inj;
  repeat first [ rewrite mul_spec | rewrite add_spec | rewrite div_spec
               | rewrite sqrt_spec ];
  unfold SF64mul, SF64add, SF64div, SF64sqrt.

Lemma Prim2SF_nan : Prim2SF nan = S754_nan.
Proof. reflexivity. Qed.

Lemma Prim2SF_zero : Prim2SF 0 = S754_zero false.
Proof. reflexivity. Qed.

Lemma nan_of_spec (x : number) : Prim2SF x = S754_nan -> x = nan.
Proof. intros H. apply Prim2SF_inj. now rewrite H. Qed.

(** ** Arithmetic *)

Lemma SFmul_comm (p e : Z) (x y : spec_float) :
  SFmul p e x y = SFmul p e y x.
Proof.
  destruct x as [sx|sx| |sx mx ex], y as [sy|sy| |sy my ey]; simpl;
    try reflexivity; try (now rewrite xorb_comm).
  now rewrite xorb_comm, Pos.mul_comm, Z.add_comm.
Qed.

Lemma mul_comm (x y : number) : x * y = y * x.
Proof. to_spec. apply SFmul_comm. Qed.

Lemma mul_nan_r (x : number) : x * nan = nan.
Proof. to_spec. rewrite Prim2SF_nan. now destruct (Prim2SF x). Qed.

Lemma add_nan_r (x : number) : x + nan = nan.
Proof. to_spec. rewrite Prim2SF_nan. now destruct (Prim2SF x). Qed.

Lemma add_nan_l (x : number) : nan + x = nan.
Proof. to_spec. rewrite Prim2SF_nan. reflexivity. Qed.

Lemma div_nan_l (x : number) : nan / x = nan.
Proof. to_spec. rewrite Prim2SF_nan. reflexivity. Qed.

Lemma div_nan_r (x : number) : x / nan = nan.
Proof. to_spec. rewrite Prim2SF_nan. now destruct (Prim2SF x). Qed.

(** ** Comparison *)

Lemma SFcompare_antisym (x y : spec_float) :
  SFcompare y x = option_map CompOpp (SFcompare x y).
Proof.
  destruct x as [sx|sx| |sx mx ex], y as [sy|sy| |sy my ey]; simpl;
    try reflexivity;
    try (destruct sx; reflexivity); try (destruct sy; reflexivity);
    try (destruct sx, sy; reflexivity).
  destruct sx, sy; simpl; try reflexivity;
    rewrite (Z.compare_antisym ex ey);
    destruct (ex ?= ey)%Z; simpl; try reflexivity;
    rewrite (Pos.compare_cont_antisym mx my Eq); simpl;
    now rewrite ?CompOpp_involutive.
Qed.

Lemma SFcompare_nan_iff (x y : spec_float) :
  SFcompare x y = None <-> x = S754_nan \/ y = S754_nan.
Proof.
  split.
  - destruct x as [sx|sx| |sx mx ex], y as [sy|sy| |sy my ey]; simpl;
      intros H; try discriminate H; auto.
  - intros [-> | ->]; [reflexivity | now destruct x].
Qed.

Lemma isNaN_spec (x : number) : isNaN x = true <-> x = nan.
Proof.
  unfold isNaN, is_nan. rewrite FloatAxioms.eqb_spec. unfold SFeqb. split.
  - intros H. apply nan_of_spec.
    destruct (SFcompare (Prim2SF x) (Prim2SF x)) as [c|] eqn:E.
    + assert (c = Eq) as ->.
      { pose proof (SFcompare_antisym (Prim2SF x) (Prim2SF x)) as A.
        rewrite E in A. simpl in A. injection A as A.
        destruct c; try discriminate A; reflexivity. }
      discriminate H.
    + apply SFcompare_nan_iff in E. now destruct E.
  - intros ->. reflexivity.
Qed.

Lemma isNaN_false_spec (x : number) :
  isNaN x = false <-> Prim2SF x <> S754_nan.
Proof.
  split.
  - intros H E. apply nan_of_spec in E. subst x. discriminate H.
  - intros H. destruct (isNaN x) eqn:E; [|reflexivity].
    apply isNaN_spec in E. subst x. now elim H.
Qed.

(** A comparison that holds has two numbers as operands. *)
Lemma gtb_true_not_nan (x y : number) :
  gtb x y = true -> isNaN x = false /\ isNaN y = false.
Proof.
  unfold gtb. rewrite FloatAxioms.ltb_spec. unfold SFltb. intros H.
  rewrite !isNaN_false_spec.
  split; intros E; rewrite E in H;
    [ now destruct (Prim2SF y) | reflexivity || discriminate H ].
Qed.

Lemma gtb_nan_l (y : number) : gtb nan y = false.
Proof.
  unfold gtb. rewrite FloatAxioms.ltb_spec, Prim2SF_nan. unfold SFltb.
  now destruct (Prim2SF y).
Qed.

(** Two numbers are ordered one way, the other way, or compare equal. *)
Lemma trichotomy (x y : number) :
  isNaN x = false -> isNaN y = false ->
  gtb y x = true \/ strict_eqb x y = true \/ gtb x y = true.
Proof.
  rewrite !isNaN_false_spec. intros Hx Hy.
  unfold gtb, strict_eqb. rewrite !FloatAxioms.ltb_spec, FloatAxioms.eqb_spec.
  unfold SFltb, SFeqb.
  rewrite (SFcompare_antisym (Prim2SF x) (Prim2SF y)).
  destruct (SFcompare (Prim2SF x) (Prim2SF y)) as [[| |]|] eqn:E; simpl; auto.
  apply SFcompare_nan_iff in E. tauto.
Qed.

Lemma gtb_irrefl (x : number) : gtb x x = false.
Proof.
  unfold gtb. rewrite FloatAxioms.ltb_spec. unfold SFltb.
  pose proof (SFcompare_antisym (Prim2SF x) (Prim2SF x)) as A.
  destruct (SFcompare (Prim2SF x) (Prim2SF x)) as [[| |]|];
    simpl in A; try reflexivity; discriminate A.
Qed.

(** ** Order, by cases on the two representations *)

Ltac cmp_cases :=
  repeat match goal with
         | H : context [Z.compare ?a ?b] |- _ => destruct (Z.compare_spec a b)
         | |- context [Z.compare ?a ?b] => destruct (Z.compare_spec a b)
         | H : context [Pos.compare_cont Eq ?a ?b] |- _ =>
             change (Pos.compare_cont Eq a b) with (Pos.compare a b) in *;
             destruct (Pos.compare_spec a b)
         | |- context [Pos.compare_cont Eq ?a ?b] =>
             change (Pos.compare_cont Eq a b) with (Pos.compare a b) in *;
             destruct (Pos.compare_spec a b)
         end.

Ltac order_cases x y z :=
  unfold SFltb, SFeqb;
  destruct x as [[]|[]| |[] ? ?], y as [[]|[]| |[] ? ?],
           z as [[]|[]| |[] ? ?]; simpl;
  intros; try reflexivity; try discriminate;
  cmp_cases; simpl in *; try reflexivity; try discriminate; try lia.

Lemma SFltb_not_tied (h o x : spec_float) :
  SFltb h o = false -> SFltb h x = true -> SFeqb o x = false.
Proof. order_cases h o x. Qed.

Lemma SFltb_not_beaten (h o x : spec_float) :
  SFltb h o = false -> SFltb h x = true -> SFltb x o = false.
Proof. order_cases h o x. Qed.

(** What does not exceed [h] does not tie with what exceeds [h] ... *)
Lemma gtb_not_tied (h o x : number) :
  gtb o h = false -> gtb x h = true -> strict_eqb o x = false.
Proof.
  unfold gtb, strict_eqb.
  rewrite !FloatAxioms.ltb_spec, FloatAxioms.eqb_spec.
  apply SFltb_not_tied.
Qed.

(** ... and does not exceed it either. *)
Lemma gtb_not_beaten (h o x : number) :
  gtb o h = false -> gtb x h = true -> gtb o x = false.
Proof.
  unfold gtb. rewrite !FloatAxioms.ltb_spec. apply SFltb_not_beaten.
Qed.

(** ** Zeros *)

Lemma is_zero_spec (x : number) :
  is_zero x = true <-> exists s, Prim2SF x = S754_zero s.
Proof.
  unfold is_zero, strict_eqb. rewrite FloatAxioms.eqb_spec, Prim2SF_zero.
  unfold SFeqb. split.
  - destruct (Prim2SF x) as [s|s| |s m e]; simpl; intros H;
      try discriminate H; [now exists s | |]; now destruct s.
  - intros [s ->]. reflexivity.
Qed.

Lemma zero_or_nan_spec (x : number) :
  zero_or_nan x <-> (exists s, Prim2SF x = S754_zero s) \/ Prim2SF x = S754_nan.
Proof.
  unfold zero_or_nan. rewrite is_zero_spec. split.
  - intros [H | ->]; [now left | now right].
  - intros [H | H]; [now left | right; now apply nan_of_spec].
Qed.

Ltac zn_cases :=
  rewrite ?zero_or_nan_spec, ?mul_spec, ?add_spec, ?sqrt_spec in *;
  unfold SF64mul, SF64add, SF64sqrt in *;
  repeat match goal with
         | H : _ \/ _ |- _ => destruct H
         | H : exists _, _ |- _ => destruct H
         | H : Prim2SF _ = _ |- _ => rewrite H in *; clear H
         end.

Lemma zero_or_nan_zero : zero_or_nan 0.
Proof. left. reflexivity. Qed.

Lemma zero_or_nan_nan : zero_or_nan nan.
Proof. now right. Qed.

Lemma mul_zn_l (x y : number) : zero_or_nan x -> zero_or_nan (x * y).
Proof.
  intros H. zn_cases; [|now right].
  destruct (Prim2SF y) as [s|s| |s m e]; simpl; eauto.
Qed.

Lemma mul_zn_r (x y : number) : zero_or_nan y -> zero_or_nan (x * y).
Proof. rewrite mul_comm. apply mul_zn_l. Qed.

Lemma add_zn (x y : number) :
  zero_or_nan x -> zero_or_nan y -> zero_or_nan (x + y).
Proof.
  intros Hx Hy. zn_cases; simpl; eauto;
    repeat match goal with b : bool |- _ => destruct b end; simpl; eauto.
Qed.

Lemma sqrt_zn (x : number) : zero_or_nan x -> zero_or_nan (sqrt x).
Proof. intros H. zn_cases; simpl; eauto. Qed.

(** Zero or not-a-number divided by zero or not-a-number is
    not-a-number. *)
Lemma div_zn (x y : number) : zero_or_nan x -> zero_or_nan y -> x / y = nan.
Proof.
  intros Hx Hy. apply nan_of_spec. rewrite div_spec. unfold SF64div.
  zn_cases; simpl; reflexivity.
Qed.

End NumberFacts.

Import NumberFacts.

(* ================================================================== *)
(** * Facts about [cosineSimilarity] *)
(* ================================================================== *)

Module VectorMathFacts.

Lemma skipn_index (arr : list number) :
  forall i : nat,
    skipn i arr = match index arr i with
                  | Some x => x :: skipn (S i) arr
                  | None => []
                  end.
Proof.
  induction arr as [|x rest IH]; intros [|i]; simpl; try reflexivity.
  apply IH.
Qed.

Lemma reduce_dot_from (vecB vecA : list number) :
  forall (i : nat) (acc : number),
    reduce_from (fun sum a i => sum + a * ToNumber (index vecB i)) i acc vecA
    = dot_from acc vecA (skipn i vecB).
Proof.
  induction vecA as [|a restA IH]; intros i acc; simpl.
  - reflexivity.
  - rewrite IH, (skipn_index vecB i).
    destruct (index vecB i) as [b|] eqn:E; simpl; [reflexivity|].
    change (match vecB with [] => [] | _ :: l => skipn i l end)
      with (skipn (S i) vecB).
    assert (skipn (S i) vecB = []) as ->; [|reflexivity].
    apply skipn_all2. unfold index in E. apply nth_error_None in E. lia.
Qed.

Lemma dotProduct_dot_from (vecA vecB : list number) :
  dotProduct vecA vecB = dot_from 0 vecA vecB.
Proof. exact (reduce_dot_from vecB vecA 0 0). Qed.

Lemma dot_from_comm (vecA : list number) :
  forall (vecB : list number) (acc : number),
    length vecA = length vecB ->
    dot_from acc vecA vecB = dot_from acc vecB vecA.
Proof.
  induction vecA as [|a restA IH]; intros [|b restB] acc Hlen;
    simpl in *; try discriminate Hlen; try reflexivity.
  rewrite (mul_comm a b). apply IH. now injection Hlen.
Qed.

(** Surplus entries of [vecB] never enter the dot product. *)
Lemma dot_from_firstn (vecA : list number) :
  forall (vecB : list number) (acc : number),
    dot_from acc vecA vecB = dot_from acc vecA (firstn (length vecA) vecB).
Proof.
  induction vecA as [|a restA IH]; intros [|b restB] acc; simpl;
    try reflexivity.
  apply IH.
Qed.

Lemma dot_from_nan (vecA vecB : list number) : dot_from nan vecA vecB = nan.
Proof.
  revert vecB. induction vecA as [|a restA IH]; intros [|b restB]; simpl;
    rewrite ?add_nan_l; auto.
Qed.

(** One entry of [vecA] without partner turns the sum into
    not-a-number, and it stays so. *)
Lemma dot_from_longer (vecA : list number) :
  forall (vecB : list number) (acc : number),
    length vecB < length vecA -> dot_from acc vecA vecB = nan.
Proof.
  induction vecA as [|a restA IH]; intros [|b restB] acc Hlen;
    simpl in *; try lia.
  - rewrite mul_nan_r, add_nan_r. apply dot_from_nan.
  - apply IH. lia.
Qed.

(** ** Worked values *)

Example cosineSimilarity_self : cosineSimilarity [1; 0] [1; 0] = 1.
Proof. reflexivity. Qed.

Example cosineSimilarity_orthogonal : cosineSimilarity [1; 0] [0; 1] = 0.
Proof. reflexivity. Qed.

Example cosineSimilarity_zero_vector : cosineSimilarity [0; 0] [1; 0] = nan.
Proof. reflexivity. Qed.

(** ** Vectors of norm zero *)

Lemma dot_from_zn_l (vecA : list number) :
  forall (vecB : list number) (acc : number),
    all_zero vecA = true -> zero_or_nan acc ->
    zero_or_nan (dot_from acc vecA vecB).
Proof.
  induction vecA as [|a restA IH]; intros vecB acc Hz Hacc; simpl in *.
  - exact Hacc.
  - apply andb_prop in Hz as [Ha Hrest].
    assert (Hzn : zero_or_nan a) by now left.
    destruct vecB as [|b restB]; apply IH; auto using add_zn, mul_zn_l.
Qed.

Lemma dot_from_zn_r (vecA : list number) :
  forall (vecB : list number) (acc : number),
    all_zero vecB = true -> zero_or_nan acc ->
    zero_or_nan (dot_from acc vecA vecB).
Proof.
  induction vecA as [|a restA IH]; intros vecB acc Hz Hacc; simpl in *.
  - exact Hacc.
  - destruct vecB as [|b restB]; simpl in Hz.
    + apply IH; auto using add_zn, mul_zn_r, zero_or_nan_nan.
    + apply andb_prop in Hz as [Hb Hrest].
      assert (Hzn : zero_or_nan b) by now left.
      apply IH; auto using add_zn, mul_zn_r.
Qed.

Lemma sumOfSquares_zn (vec : list number) :
  forall (i : nat) (acc : number),
    all_zero vec = true -> zero_or_nan acc ->
    zero_or_nan (reduce_from (fun sum val _ => sum + val * val) i acc vec).
Proof.
  induction vec as [|x rest IH]; intros i acc Hz Hacc; simpl in *.
  - exact Hacc.
  - apply andb_prop in Hz as [Hx Hrest].
    assert (Hzn : zero_or_nan x) by now left.
    apply IH; auto using add_zn, mul_zn_l.
Qed.

Lemma magnitude_zn (vec : list number) :
  all_zero vec = true -> zero_or_nan (magnitude vec).
Proof.
  intros Hz. apply sqrt_zn, sumOfSquares_zn; auto using zero_or_nan_zero.
Qed.

(** A first argument of norm zero makes the similarity not-a-number,
    whatever the second. *)
Lemma cosineSimilarity_zero_l (vecA vecB : list number) :
  all_zero vecA = true -> cosineSimilarity vecA vecB = nan.
Proof.
  intros Hz. unfold cosineSimilarity. rewrite dotProduct_dot_from.
  apply div_zn.
  - apply dot_from_zn_l; auto using zero_or_nan_zero.
  - apply mul_zn_l, magnitude_zn, Hz.
Qed.

Lemma cosineSimilarity_zero_r (vecA vecB : list number) :
  all_zero vecB = true -> cosineSimilarity vecA vecB = nan.
Proof.
  intros Hz. unfold cosineSimilarity. rewrite dotProduct_dot_from.
  apply div_zn.
  - apply dot_from_zn_r; auto using zero_or_nan_zero.
  - apply mul_zn_r, magnitude_zn, Hz.
Qed.

(** ** Symmetry *)

(** C9. For two vectors of equal length, [cosineSimilarity a b] and
    [cosineSimilarity b a] are the same number (both not-a-number when
    one is): the products under the first fold commute, and so does the
    product of the two magnitudes. *)
Theorem cosineSimilarity_symmetric (a b : list number) :
  length a = length b ->
  cosineSimilarity a b = cosineSimilarity b a.
Proof.
  intros Hlen. unfold cosineSimilarity.
  rewrite !dotProduct_dot_from, (dot_from_comm a b 0 Hlen).
  now rewrite (mul_comm (magnitude a) (magnitude b)).
Qed.

Lemma cosineSimilarity_symmetric_witness :
  length [1; 2] = length [3; 4] /\
  cosineSimilarity [1; 2] [3; 4] = cosineSimilarity [3; 4] [1; 2].
Proof.
  split; [reflexivity | apply cosineSimilarity_symmetric; reflexivity].
Defined.

(** ** Arguments of different lengths *)

(** C3, as stated, fails: on a one-entry and a two-entry vector the
    call returns the number 1 instead of throwing. *)
Lemma cosineSimilarity_mismatch_returns :
  length [1] <> length [1; 0] /\
  call_cosineSimilarity (Some [1]) [1; 0] = Returned 1.
Proof. split; [discriminate | reflexivity]. Qed.

(** C3, amended. [cosineSimilarity] checks no length and throws
    nothing: on vectors of different lengths it returns a number. When
    [a] is the shorter one, the surplus entries of [b] are left out of
    the dot product but not of the magnitude of [b]; when [a] is the
    longer one, the result is not-a-number. *)
Theorem cosineSimilarity_mismatched_lengths (a b : list number) :
  length a <> length b ->
  call_cosineSimilarity (Some a) b =
  Returned (if Nat.ltb (length a) (length b)
            then dotProduct a (firstn (length a) b)
                 / (magnitude a * magnitude b)
            else nan).
Proof.
  intros Hlen. simpl. f_equal. unfold cosineSimilarity.
  rewrite !dotProduct_dot_from.
  destruct (Nat.ltb_spec (length a) (length b)) as [Hlt | Hge].
  - now rewrite <- dot_from_firstn.
  - rewrite dot_from_longer by lia. apply div_nan_l.
Qed.

Lemma cosineSimilarity_mismatched_lengths_witness :
  length [1; 0] <> length [1] /\
  call_cosineSimilarity (Some [1; 0]) [1] = Returned nan.
Proof.
  split; [discriminate |].
  exact (cosineSimilarity_mismatched_lengths [1; 0] [1]
           (fun H : length [1; 0] = length [1] =>
              Nat.neq_succ_0 _ (eq_add_S _ _ H))).
Defined.

End VectorMathFacts.

(* ================================================================== *)
(** * Facts about the scan *)
(* ================================================================== *)

Import VectorMathFacts.

Module RetrievalFacts.

Lemma scan_callback_pick (q : list number) (vars : Vars) (doc : Doc) :
  scan_callback (Some q) vars doc = Returned (pick q vars doc).
Proof.
  destruct vars as [bestMatch highestSimilarity]. unfold pick, score. simpl.
  now destruct (gtb _ _).
Qed.

Lemma forEach_pick (q : list number) (docs : list Doc) :
  forall vars : Vars,
    forEach (scan_callback (Some q)) docs vars
    = Returned (fold_left (pick q) docs vars).
Proof.
  induction docs as [|doc rest IH]; intros vars.
  - reflexivity.
  - cbn [forEach fold_left]. rewrite scan_callback_pick. apply IH.
Qed.

Lemma scan_fold (q : list number) (docs : list Doc) :
  scan (Some q) docs = Returned (fold_left (pick q) docs initial).
Proof. apply forEach_pick. Qed.

(** After any run of the callback the variables are either untouched or
    hold a scanned document together with its own score, which is a
    number. *)
Lemma fold_pick_cases (q : list number) (docs : list Doc) :
  forall vars : Vars,
    fold_left (pick q) docs vars = vars \/
    exists (j : nat) (doc : Doc),
      nth_error docs j = Some doc /\
      fold_left (pick q) docs vars = (Some doc, score q doc) /\
      isNaN (score q doc) = false.
Proof.
  induction docs as [|x rest IH]; intros vars; cbn [fold_left].
  - now left.
  - destruct (IH (pick q vars x)) as [Hsame | (j & doc & Hj & Hrun & Hnum)].
    + rewrite Hsame. unfold pick.
      destruct (gtb (score q x) (snd vars)) eqn:Hgt; [right | now left].
      exists 0%nat, x. repeat split. now apply gtb_true_not_nan in Hgt.
    + right. exists (S j), doc. auto.
Qed.

(** Documents that do not beat the score held leave the variables as
    they are. *)
Lemma fold_pick_stable (q : list number) (docs : list Doc) (vars : Vars) :
  (forall doc, In doc docs -> gtb (score q doc) (snd vars) = false) ->
  fold_left (pick q) docs vars = vars.
Proof.
  induction docs as [|x rest IH]; intros Hall; cbn [fold_left].
  - reflexivity.
  - unfold pick at 2. rewrite (Hall x) by now left.
    apply IH. intros doc Hin. apply Hall. now right.
Qed.

(** No document scoring above negative infinity: nothing is selected. *)
Lemma scan_none (q : list number) (docs : list Doc) :
  (forall doc, In doc docs -> gtb (score q doc) neg_infinity = false) ->
  scan (Some q) docs = Returned (None, neg_infinity).
Proof.
  intros Hall. rewrite scan_fold. f_equal. now apply fold_pick_stable.
Qed.

(** An unset [bestMatch] comes with the initial [highestSimilarity]. *)
Lemma scan_unset_initial (vecA : option (list number)) (docs : list Doc)
      (s : number) :
  scan vecA docs = Returned (None, s) -> s = neg_infinity.
Proof.
  destruct vecA as [q|].
  - rewrite scan_fold. intros H. injection H as H.
    destruct (fold_pick_cases q docs initial) as [Hsame | (j & doc & _ & Hrun & _)].
    + rewrite Hsame in H. now injection H.
    + rewrite Hrun in H. discriminate H.
  - destruct docs as [|doc rest]; simpl; intros H.
    + now injection H.
    + discriminate H.
Qed.

(** C1, as stated, fails: the only record scanned has a similarity that
    is a number, negative infinity, and it is not selected. *)
Lemma scan_skips_neg_infinity_score :
  let q := [1] in
  let doc := {| documentName := "a.pdf"; embedding := [-0x1p-600];
                content := "" |} in
  isNaN (score q doc) = false /\
  score q doc = neg_infinity /\
  scan (Some q) [doc] = Returned (None, neg_infinity).
Proof. repeat split. Qed.

(** What the variables hold after a scan: a score no scanned record
    exceeds; with [bestMatch] unset the initial score, and otherwise the
    score of [bestMatch], which no record scanned before it ties
    with. *)
Lemma fold_pick_invariant (q : list number) (docs : list Doc) :
  (forall other, In other docs ->
                 gtb (score q other) (snd (fold_left (pick q) docs initial)) = false) /\
  match fst (fold_left (pick q) docs initial) with
  | None => snd (fold_left (pick q) docs initial) = neg_infinity
  | Some doc =>
      snd (fold_left (pick q) docs initial) = score q doc /\
      exists i : nat,
        nth_error docs i = Some doc /\
        forall j other, (j < i)%nat -> nth_error docs j = Some other ->
                        strict_eqb (score q other) (score q doc) = false
  end.
Proof.
  induction docs as [|x pre [Hbound Hbest]] using rev_ind.
  - split; [intros other [] | reflexivity].
  - rewrite fold_left_app. cbn [fold_left].
    set (vars := fold_left (pick q) pre initial) in *.
    unfold pick. destruct (gtb (score q x) (snd vars)) eqn:Hgt; cbn [fst snd].
    + split.
      * intros other Hin. apply in_app_or in Hin as [Hin | [<- | []]].
        -- exact (gtb_not_beaten _ _ _ (Hbound other Hin) Hgt).
        -- apply gtb_irrefl.
      * split; [reflexivity|]. exists (length pre). split.
        -- now rewrite nth_error_app2, Nat.sub_diag by lia.
        -- intros j other Hj Hnth. rewrite nth_error_app1 in Hnth by lia.
           apply nth_error_In in Hnth.
           exact (gtb_not_tied _ _ _ (Hbound other Hnth) Hgt).
    + split.
      * intros other Hin. apply in_app_or in Hin as [Hin | [<- | []]]; auto.
      * destruct (fst vars) as [doc|]; [|exact Hbest].
        destruct Hbest as (Hscore & i & Hi & Hfirst).
        assert (Hlt : (i < length pre)%nat).
        { apply nth_error_Some. now rewrite Hi. }
        split; [exact Hscore|]. exists i. split.
        -- now rewrite nth_error_app1 by lia.
        -- intros j other Hj Hnth. rewrite nth_error_app1 in Hnth by lia.
           eauto.
Qed.

(** C1, amended. Starting from negative infinity, whenever some scanned
    record has a similarity greater than negative infinity the scan
    selects a record, with its own similarity as the score: no scanned
    record has a greater similarity, and no record scanned before it has
    an equal one. *)
Theorem scan_selects_first_maximum (q : list number) (docs : list Doc) :
  (exists candidate, In candidate docs /\
                     gtb (score q candidate) neg_infinity = true) ->
  exists (i : nat) (doc : Doc),
    nth_error docs i = Some doc /\
    scan (Some q) docs = Returned (Some doc, score q doc) /\
    (forall other, In other docs ->
                   gtb (score q other) (score q doc) = false) /\
    (forall j other, (j < i)%nat -> nth_error docs j = Some other ->
                     strict_eqb (score q other) (score q doc) = false).
Proof.
  intros (candidate & Hin & Hgt).
  destruct (fold_pick_invariant q docs) as [Hbound Hbest].
  rewrite scan_fold.
  destruct (fold_left (pick q) docs initial) as [[doc|] s]; cbn [fst snd] in *.
  - destruct Hbest as (-> & i & Hi & Hfirst).
    exists i, doc. auto.
  - subst s. rewrite (Hbound candidate Hin) in Hgt. discriminate Hgt.
Qed.

Lemma scan_selects_first_maximum_witness :
  let a := {| documentName := "a"; embedding := [1; 0]; content := "" |} in
  let b := {| documentName := "b"; embedding := [0; 1]; content := "" |} in
  let c := {| documentName := "c"; embedding := [2; 0]; content := "" |} in
  exists (i : nat) (doc : Doc),
    nth_error [b; a; c] i = Some doc /\
    scan (Some [1; 0]) [b; a; c] = Returned (Some doc, score [1; 0] doc) /\
    (forall other, In other [b; a; c] ->
                   gtb (score [1; 0] other) (score [1; 0] doc) = false) /\
    (forall j other, (j < i)%nat -> nth_error [b; a; c] j = Some other ->
                     strict_eqb (score [1; 0] other) (score [1; 0] doc) = false).
Proof.
  intros a b c.
  apply (scan_selects_first_maximum [1; 0] [b; a; c]).
  exists a. split; [right; left; reflexivity | reflexivity].
Defined.

(** Conversely, the first record with the highest similarity, when that
    similarity is greater than negative infinity, is the one selected. *)
Lemma scan_first_maximum_selected
        (q : list number) (docs : list Doc) (i : nat) (doc : Doc) :
  nth_error docs i = Some doc ->
  gtb (score q doc) neg_infinity = true ->
  (forall other, In other docs -> gtb (score q other) (score q doc) = false) ->
  (forall j other, (j < i)%nat -> nth_error docs j = Some other ->
                   strict_eqb (score q other) (score q doc) = false) ->
  scan (Some q) docs = Returned (Some doc, score q doc).
Proof.
  intros Hi Hinf Hmax Hfirst.
  destruct (nth_error_split docs i Hi) as (pre & post & -> & Hlen).
  rewrite scan_fold, fold_left_app. cbn [fold_left]. f_equal.
  assert (Hbeat : gtb (score q doc) (snd (fold_left (pick q) pre initial)) = true).
  { destruct (fold_pick_cases q pre initial) as [-> | (j & other & Hj & -> & Hnum)].
    - exact Hinf.
    - cbn [snd].
      assert (Hjlt : (j < i)%nat).
      { rewrite <- Hlen. apply nth_error_Some. now rewrite Hj. }
      assert (Hj' : nth_error (pre ++ doc :: post) j = Some other).
      { rewrite nth_error_app1 by lia. exact Hj. }
      destruct (gtb_true_not_nan _ _ Hinf) as [Hdoc _].
      destruct (trichotomy (score q other) (score q doc) Hnum Hdoc)
        as [Hlt | [Heq | Hgt]].
      + exact Hlt.
      + rewrite (Hfirst j other Hjlt Hj') in Heq. discriminate Heq.
      + rewrite (Hmax other) in Hgt; [discriminate Hgt |].
        eapply nth_error_In, Hj'. }
  unfold pick at 2. rewrite Hbeat.
  apply fold_pick_stable. intros other Hin. cbn [snd].
  apply Hmax. apply in_or_app. right. now right.
Qed.


(** The three records of the worked example: query [[1, 0]] against
    [[1, 0]], [[0, 1]] and [[0.9, 0.1]] selects the first, with score
    1. *)
Example scan_worked_example :
  let a := {| documentName := "a"; embedding := [1; 0]; content := "" |} in
  let b := {| documentName := "b"; embedding := [0; 1]; content := "" |} in
  let c := {| documentName := "c"; embedding := [0.9; 0.1]; content := "" |} in
  scan (Some [1; 0]) [a; b; c] = Returned (Some a, 1).
Proof. reflexivity. Qed.

(** A non-zero vector whose squares underflow has a computed magnitude
    of zero; its similarity is then infinite, not not-a-number, and the
    scan selects it. *)
Remark scan_underflow_scores_infinity :
  let tiny := {| documentName := "tiny"; embedding := [0x1p-600];
                 content := "" |} in
  all_zero (embedding tiny) = false /\
  magnitude (embedding tiny) = 0 /\
  scan (Some [1]) [tiny] = Returned (Some tiny, infinity).
Proof. repeat split. Qed.

Lemma score_nan_cases (q : list number) (doc : Doc) :
  isNaN (score q doc) = true \/
  all_zero q = true \/ all_zero (embedding doc) = true ->
  score q doc = nan.
Proof.
  intros [Hnan | [Hq | Hdoc]].
  - now apply isNaN_spec.
  - now apply cosineSimilarity_zero_l.
  - now apply cosineSimilarity_zero_r.
Qed.

(** C5. A record whose similarity to the query is not-a-number, as it
    is whenever the query or the stored vector has norm zero, leaves the
    variables of the scan as they are, and is not the record the scan
    ends with. *)
Theorem nan_similarity_never_selected
        (q : list number) (docs : list Doc) (doc : Doc) :
  isNaN (score q doc) = true \/
  all_zero q = true \/ all_zero (embedding doc) = true ->
  (forall vars, scan_callback (Some q) vars doc = Returned vars) /\
  (forall best s, scan (Some q) docs = Returned (Some best, s) -> best <> doc).
Proof.
  intros Hcases. apply score_nan_cases in Hcases. split.
  - intros vars. rewrite scan_callback_pick. unfold pick.
    now rewrite Hcases, gtb_nan_l.
  - intros best s Hscan ->. rewrite scan_fold in Hscan. injection Hscan as Hscan.
    destruct (fold_pick_cases q docs initial) as [Hsame | (j & d & _ & Hrun & Hnum)];
      rewrite Hscan in *.
    + discriminate Hsame.
    + injection Hrun as -> _. rewrite Hcases in Hnum. discriminate Hnum.
Qed.

Lemma nan_similarity_never_selected_witness :
  let z := {| documentName := "z"; embedding := [0; 0]; content := "" |} in
  let a := {| documentName := "a"; embedding := [0; 1]; content := "" |} in
  (forall vars, scan_callback (Some [1; 0]) vars z = Returned vars) /\
  (forall best s,
      scan (Some [1; 0]) [z; a] = Returned (Some best, s) -> best <> z).
Proof.
  intros z a.
  apply (nan_similarity_never_selected [1; 0] [z; a] z).
  right. right. reflexivity.
Defined.

End RetrievalFacts.

(* ================================================================== *)
(** * Facts about the handlers of [query.js] *)
(* ================================================================== *)

Import RetrievalFacts.

Module QueryJsFacts.

Import QueryJs.
Local Open Scope string_scope.
Local Open Scope list_scope.

(** Runs a handler whose collaborators' outcomes are hypotheses. *)
Ltac run_handler :=
  unfold upload, query, EarlierServer.query, try_catch, bind, call, find,
    save, ret;
  repeat match goal with
         | H : _ = Returned _ |- _ => rewrite H
         | H : _ = Thrown _ |- _ => rewrite H
         | H : _ = false |- _ => rewrite H
         end;
  try reflexivity.

(** ** [POST /query] *)

(** The scan ending with [bestMatch] unset: the "No match found" body,
    with the score the scan ended with. *)
Lemma query_unset (w : World) (text : string) (db : collection)
      (queryEmbedding : list (list number)) (s : number) :
  text <> "" ->
  featureExtraction w (Some text) = Returned queryEmbedding ->
  findFails w = false ->
  scan (nth_error queryEmbedding 0) db = Returned (None, s) ->
  query w (Some text) db = (Returned (no_match s), db).
Proof.
  intros Htext Hembed Hfind Hscan.
  destruct text as [|c text]; [now elim Htext|].
  run_handler.
Qed.

(** An empty collection, or a collection of which every record scores
    not-a-number: [POST /query] answers "No match found" with status
    200. *)
Lemma query_no_match (w : World) (text : string) (db : collection)
      (queryEmbedding : list (list number)) :
  text <> "" ->
  featureExtraction w (Some text) = Returned queryEmbedding ->
  findFails w = false ->
  db = [] \/
  (exists q, nth_error queryEmbedding 0 = Some q /\
             forall doc, In doc db -> isNaN (score q doc) = true) ->
  query w (Some text) db = (Returned (no_match neg_infinity), db).
Proof.
  intros Htext Hembed Hfind Hdb.
  apply query_unset with (queryEmbedding := queryEmbedding); auto.
  destruct Hdb as [-> | (q & -> & Hnan)].
  - reflexivity.
  - apply scan_none. intros doc Hin.
    apply Hnan, isNaN_spec in Hin. rewrite Hin. apply gtb_nan_l.
Qed.

(** When the scan leaves [bestMatch] unset, the body handed to
    [res.json] has the message "No match found" and a [similarity] field
    holding negative infinity, the value [highestSimilarity] started
    with. *)
Theorem no_match_carries_neg_infinity (w : World) (text : string)
        (db : collection) (queryEmbedding : list (list number)) (s : number) :
  text <> "" ->
  featureExtraction w (Some text) = Returned queryEmbedding ->
  findFails w = false ->
  scan (nth_error queryEmbedding 0) db = Returned (None, s) ->
  query w (Some text) db =
  (Returned {| status := 200;
               body := {| message := "No match found";
                          response := None;
                          similarity := Some neg_infinity |} |}, db).
Proof.
  intros Htext Hembed Hfind Hscan.
  rewrite (query_unset w text db queryEmbedding s Htext Hembed Hfind Hscan).
  now rewrite (scan_unset_initial _ _ s Hscan).
Qed.

Lemma no_match_carries_neg_infinity_witness :
  query (Samples.healthy [[1; 0]]) (Some "anything stored?") [] =
  (Returned {| status := 200;
               body := {| message := "No match found";
                          response := None;
                          similarity := Some neg_infinity |} |}, []).
Proof.
  apply (no_match_carries_neg_infinity
           (Samples.healthy [[1; 0]]) "anything stored?" [] [[1; 0]]
           neg_infinity).
  - discriminate.
  - reflexivity.
  - reflexivity.
  - reflexivity.
Defined.

(** C4, as stated, fails: a best match is found, the chat completion
    throws, and the answer is the status 500 body, which carries neither
    the match nor its score. *)
Lemma generation_failure_loses_match :
  let doc := Samples.stored "report.pdf" [1; 0] "extracted text" in
  scan (Some [1; 0]) [doc] = Returned (Some doc, 1) /\
  query (Samples.generation_down [[1; 0]]) (Some "what is it about?") [doc] =
  (Returned {| status := 500;
               body := {| message := "Error processing query";
                          response := None;
                          similarity := None |} |}, [doc]).
Proof. split; reflexivity. Qed.

(** C4, amended. When a best match has been found and the chat
    completion throws, the request fails as a whole: the answer is
    status 500 with the message "Error processing query", without the
    matched record's name and without a score. *)
Theorem generation_failure_fails_request (w : World) (text : string)
        (db : collection) (queryEmbedding : list (list number))
        (doc : Doc) (s : number) (e : exn) :
  text <> "" ->
  featureExtraction w (Some text) = Returned queryEmbedding ->
  findFails w = false ->
  scan (nth_error queryEmbedding 0) db = Returned (Some doc, s) ->
  chatCompletions w (prompt doc text) = Thrown e ->
  query w (Some text) db =
  (Returned {| status := 500;
               body := {| message := "Error processing query";
                          response := None;
                          similarity := None |} |}, db).
Proof.
  intros Htext Hembed Hfind Hscan Hchat.
  destruct text as [|c text]; [now elim Htext|].
  run_handler.
Qed.

Lemma generation_failure_fails_request_witness :
  query (Samples.generation_down [[1; 0]]) (Some "what is it about?")
        [Samples.stored "report.pdf" [1; 0] "extracted text"] =
  (Returned {| status := 500;
               body := {| message := "Error processing query";
                          response := None;
                          similarity := None |} |},
   [Samples.stored "report.pdf" [1; 0] "extracted text"]).
Proof.
  apply (generation_failure_fails_request
           (Samples.generation_down [[1; 0]]) "what is it about?"
           [Samples.stored "report.pdf" [1; 0] "extracted text"] [[1; 0]]
           (Samples.stored "report.pdf" [1; 0] "extracted text") 1 OtherError).
  - discriminate.
  - reflexivity.
  - reflexivity.
  - reflexivity.
  - reflexivity.
Defined.

(** ** [POST /upload] *)

(** The record [POST /upload] builds from the file's name, the first
    embedding returned and the extracted text. *)
Lemma upload_saved (w : World) (f : File) (db : collection)
      (dataBuffer extractedText : string) (embeddings : list (list number)) :
  let filePath := path_join (uploadDir w) (filename f) in
  let newEmbedding := {| documentName := filename f;
                         embedding := castNumbers (nth_error embeddings 0);
                         content := extractedText |} in
  readFileSync w filePath = Returned dataBuffer ->
  pdfParse w dataBuffer = Returned extractedText ->
  unlinkSync w filePath = Returned tt ->
  featureExtraction w (Some extractedText) = Returned embeddings ->
  saveFails w newEmbedding = false ->
  upload w (Some f) db =
  (Returned (json 201 "Embedding saved successfully"), db ++ [newEmbedding]).
Proof.
  intros filePath newEmbedding Hread Hparse Hunlink Hembed Hsave.
  subst filePath newEmbedding. run_handler.
Qed.

(** Whatever the collaborators do, [POST /upload] leaves the collection
    as it was or appends one record to it, and appends only when it
    answers 201. *)
Lemma upload_appends_at_most_one (w : World) (file : option File)
      (db : collection) :
  exists resp db',
    upload w file db = (Returned resp, db') /\
    (db' = db \/ (status resp = 201%nat /\ exists doc, db' = db ++ [doc])).
Proof.
  unfold upload, try_catch, bind, call, save, ret.
  destruct file as [f|]; [|eauto].
  destruct (readFileSync w _) as [dataBuffer|e]; [|eauto].
  destruct (pdfParse w _) as [extractedText|e]; [|eauto].
  destruct (unlinkSync w _) as [[]|e]; [|eauto].
  destruct (featureExtraction w _) as [embeddings|e]; [|eauto].
  destruct (saveFails w _); eauto 8.
Qed.

(** C6, amended. When the embedding call of [POST /upload] throws, the request
    fails (the body built by the [catch], with status 400 or 500, never
    201) and the collection is what it was: no record is saved. *)
Theorem upload_embedding_failure_persists_nothing
        (w : World) (f : File) (db : collection)
        (dataBuffer extractedText : string) (e : exn) :
  let filePath := path_join (uploadDir w) (filename f) in
  readFileSync w filePath = Returned dataBuffer ->
  pdfParse w dataBuffer = Returned extractedText ->
  unlinkSync w filePath = Returned tt ->
  featureExtraction w (Some extractedText) = Thrown e ->
  upload w (Some f) db = (Returned (upload_catch e), db) /\
  status (upload_catch e) <> 201%nat.
Proof.
  intros filePath Hread Hparse Hunlink Hembed. subst filePath. split.
  - run_handler.
  - destruct e; discriminate.
Qed.

Lemma upload_embedding_failure_persists_nothing_witness :
  let db := [Samples.stored "old.pdf" [1; 0] "old text"] in
  upload Samples.embedding_down (Some Samples.report) db =
  (Returned (json 500 "Error processing the PDF"), db) /\
  status (json 500 "Error processing the PDF") <> 201%nat.
Proof.
  intros db.
  apply (upload_embedding_failure_persists_nothing
           Samples.embedding_down Samples.report db
           "%PDF-1.4" "extracted text" OtherError);
    reflexivity.
Defined.




(** C8, as stated, fails: a file named as a stored record is uploaded
    again, and afterwards [find] lists the old record and the new one,
    the old one first. *)
Lemma upload_same_name_keeps_old :
  let old := Samples.stored "report.pdf" [1; 0] "first version" in
  let new := Samples.stored "report.pdf" [0; 1] "extracted text" in
  let w := Samples.healthy [[0; 1]] in
  documentName old = filename Samples.report /\
  upload w (Some Samples.report) [old] =
  (Returned (json 201 "Embedding saved successfully"), [old; new]) /\
  find w [old; new] = (Returned [old; new], [old; new]).
Proof. repeat split. Qed.

(** C8, amended. An upload never overwrites: the record it saves is
    appended, so a record stored before under the same name is still in
    the collection afterwards, ahead of the new one, and [find] lists
    both. *)
Theorem upload_same_name_appends (w : World) (f : File) (db : collection)
        (dataBuffer extractedText : string) (embeddings : list (list number))
        (old : Doc) :
  let filePath := path_join (uploadDir w) (filename f) in
  let newEmbedding := {| documentName := filename f;
                         embedding := castNumbers (nth_error embeddings 0);
                         content := extractedText |} in
  readFileSync w filePath = Returned dataBuffer ->
  pdfParse w dataBuffer = Returned extractedText ->
  unlinkSync w filePath = Returned tt ->
  featureExtraction w (Some extractedText) = Returned embeddings ->
  saveFails w newEmbedding = false ->
  findFails w = false ->
  In old db ->
  documentName old = filename f ->
  exists db',
    upload w (Some f) db =
    (Returned (json 201 "Embedding saved successfully"), db') /\
    db' = db ++ [newEmbedding] /\
    find w db' = (Returned db', db') /\
    In old db' /\ In newEmbedding db'.
Proof.
  intros filePath newEmbedding Hread Hparse Hunlink Hembed Hsave Hfind Hold _.
  exists (db ++ [newEmbedding]). repeat split.
  - now apply upload_saved with (dataBuffer := dataBuffer).
  - unfold find. now rewrite Hfind.
  - apply in_or_app. now left.
  - apply in_or_app. right. now left.
Qed.

Lemma upload_same_name_appends_witness :
  let old := Samples.stored "report.pdf" [1; 0] "first version" in
  let new := Samples.stored "report.pdf" [0; 1] "extracted text" in
  exists db',
    upload (Samples.healthy [[0; 1]]) (Some Samples.report) [old] =
    (Returned (json 201 "Embedding saved successfully"), db') /\
    db' = [old] ++ [new] /\
    find (Samples.healthy [[0; 1]]) db' = (Returned db', db') /\
    In old db' /\ In new db'.
Proof.
  intros old new.
  apply (upload_same_name_appends
           (Samples.healthy [[0; 1]]) Samples.report [old]
           "%PDF-1.4" "extracted text" [[0; 1]] old);
    try reflexivity.
  now left.
Defined.

End QueryJsFacts.

(* ================================================================== *)
(** * Facts about the earlier server *)
(* ================================================================== *)

Module EarlierServerFacts.

Import QueryJs QueryJsFacts.
Local Open Scope string_scope.

(** The scan ending with [bestMatch] unset: reading its [documentName]
    throws, and the [catch] answers 500. *)
Lemma earlier_query_unset (w : World) (queryText : option string)
      (db : collection) (queryEmbedding : list (list number)) (s : number) :
  featureExtraction w queryText = Returned queryEmbedding ->
  findFails w = false ->
  scan (nth_error queryEmbedding 0) db = Returned (None, s) ->
  EarlierServer.query w queryText db = (Returned query_failed, db).
Proof. intros Hembed Hfind Hscan. run_handler. Qed.

(** C2, at the input where the earlier server breaks it: over an empty
    collection its [POST /query] answers status 500, "Error processing
    query". *)
Theorem earlier_query_empty_store_errors :
  EarlierServer.query (Samples.healthy [[1; 0]]) (Some "anything stored?") [] =
  (Returned {| status := 500;
               body := {| message := "Error processing query";
                          response := None;
                          similarity := None |} |}, []).
Proof. reflexivity. Qed.

(** The same request to the server of [query.js]: status 200, "No match
    found". *)
Lemma query_empty_store_no_match :
  query (Samples.healthy [[1; 0]]) (Some "anything stored?") [] =
  (Returned (no_match neg_infinity), []).
Proof. reflexivity. Qed.

End EarlierServerFacts.

(* ================================================================== *)
(** * Further facts about [cosineSimilarity] *)
(* ================================================================== *)

Module VectorMathMore.

(** ** Entries that are not numbers *)

Lemma sumOfSquares_from_nan (vec : list number) (i : nat) :
  reduce_from (fun sum val (_ : nat) => sum + val * val) i nan vec = nan.
Proof.
  revert i. induction vec as [|x rest IH]; intros i; simpl.
  - reflexivity.
  - rewrite add_nan_l. apply IH.
Qed.

Lemma sumOfSquares_nan_entry (vec : list number) :
  forall (i : nat) (acc : number),
    existsb isNaN vec = true ->
    reduce_from (fun sum val (_ : nat) => sum + val * val) i acc vec = nan.
Proof.
  induction vec as [|x rest IH]; intros i acc Hnan; simpl in *.
  - discriminate Hnan.
  - destruct (isNaN x) eqn:Hx.
    + apply isNaN_spec in Hx. subst x.
      rewrite mul_nan_r, add_nan_r. apply sumOfSquares_from_nan.
    + apply IH. exact Hnan.
Qed.

Lemma magnitude_nan_entry (vec : list number) :
  existsb isNaN vec = true -> magnitude vec = nan.
Proof.
  intros Hnan. unfold magnitude, sumOfSquares, reduce.
  now rewrite sumOfSquares_nan_entry.
Qed.

(** X1. A not-a-number entry anywhere in either vector makes the
    similarity not-a-number: the magnitude of that vector is
    not-a-number, and so are the denominator and the quotient. *)
Theorem cosineSimilarity_nan_entry (a b : list number) :
  existsb isNaN a = true \/ existsb isNaN b = true ->
  cosineSimilarity a b = nan.
Proof.
  intros [Ha | Hb]; unfold cosineSimilarity.
  - rewrite (magnitude_nan_entry a Ha), mul_comm, mul_nan_r. apply div_nan_r.
  - rewrite (magnitude_nan_entry b Hb), mul_nan_r. apply div_nan_r.
Qed.

Lemma cosineSimilarity_nan_entry_witness :
  cosineSimilarity [1; 2] [3; nan] = nan.
Proof.
  apply (cosineSimilarity_nan_entry [1; 2] [3; nan]).
  right. reflexivity.
Defined.

(** ** Signs *)

Lemma binary_round_aux_not_negative (p e : Z) (m ex : Z) (l : location) :
  SFltb (binary_round_aux p e false m ex l) (S754_zero false) = false /\
  binary_round_aux p e false m ex l <> S754_zero true.
Proof.
  unfold binary_round_aux.
  destruct (shr_fexp p e m ex l) as [mrs' e'].
  destruct (shr_fexp p e _ e' loc_Exact) as [mrs'' e''].
  destruct (shr_m mrs'') as [|mz|mz]; [| destruct (e'' <=? e - p)%Z |];
    split; try reflexivity; discriminate.
Qed.

(** The representations that are neither negative nor the negative
    zero are closed under the operations [magnitude] is made of. *)
Lemma SFmul_square_not_negative (x : spec_float) :
  SFltb (SFmul prec emax x x) (S754_zero false) = false /\
  SFmul prec emax x x <> S754_zero true.
Proof.
  destruct x as [[]|[]| |[] m e]; simpl;
    try (split; [reflexivity | discriminate]);
    apply binary_round_aux_not_negative.
Qed.

Lemma SFadd_not_negative (x y : spec_float) :
  SFltb x (S754_zero false) = false /\ x <> S754_zero true ->
  SFltb y (S754_zero false) = false /\ y <> S754_zero true ->
  SFltb (SFadd prec emax x y) (S754_zero false) = false /\
  SFadd prec emax x y <> S754_zero true.
Proof.
  intros [Hx Hx'] [Hy Hy'].
  destruct x as [[]|[]| |[] mx ex], y as [[]|[]| |[] my ey];
    simpl in *; try discriminate; try congruence;
    try (split; [reflexivity | discriminate]).
  unfold binary_normalize, binary_round.
  destruct (shl_align _ _ _) as [mz ez].
  apply binary_round_aux_not_negative.
Qed.

Lemma SFsqrt_not_negative (x : spec_float) :
  SFltb x (S754_zero false) = false /\ x <> S754_zero true ->
  SFltb (SFsqrt prec emax x) (S754_zero false) = false /\
  SFsqrt prec emax x <> S754_zero true.
Proof.
  intros [Hx Hx'].
  destruct x as [[]|[]| |[] mx ex]; simpl in *;
    try discriminate; try congruence;
    try (split; [reflexivity | discriminate]).
  destruct (SFsqrt_core_binary prec emax (Z.pos mx) ex) as [[mz ez] lz].
  apply binary_round_aux_not_negative.
Qed.

Lemma SFmul_not_negative (x y : spec_float) :
  SFltb x (S754_zero false) = false /\ x <> S754_zero true ->
  SFltb y (S754_zero false) = false /\ y <> S754_zero true ->
  SFltb (SFmul prec emax x y) (S754_zero false) = false.
Proof.
  intros [Hx Hx'] [Hy Hy'].
  destruct x as [[]|[]| |[] mx ex], y as [[]|[]| |[] my ey];
    simpl in *; try discriminate; try congruence; try reflexivity.
  apply binary_round_aux_not_negative.
Qed.

Lemma sumOfSquares_not_negative (vec : list number) :
  forall (i : nat) (acc : number),
    SFltb (Prim2SF acc) (S754_zero false) = false /\
    Prim2SF acc <> S754_zero true ->
    let total := reduce_from (fun sum val (_ : nat) => sum + val * val) i acc vec in
    SFltb (Prim2SF total) (S754_zero false) = false /\
    Prim2SF total <> S754_zero true.
Proof.
  induction vec as [|x rest IH]; intros i acc Hacc; simpl.
  - exact Hacc.
  - apply IH. rewrite add_spec, mul_spec.
    apply SFadd_not_negative; [exact Hacc | apply SFmul_square_not_negative].
Qed.

Lemma magnitude_spec_not_negative (vec : list number) :
  SFltb (Prim2SF (magnitude vec)) (S754_zero false) = false /\
  Prim2SF (magnitude vec) <> S754_zero true.
Proof.
  unfold magnitude. rewrite sqrt_spec.
  apply SFsqrt_not_negative, sumOfSquares_not_negative.
  split; [reflexivity | discriminate].
Qed.

(** X2. A magnitude is never negative, and neither is the denominator
    of [cosineSimilarity], the product of the two magnitudes: each is
    zero, positive, infinite or not-a-number. *)
Theorem denominator_not_negative (a b : list number) :
  gtb 0 (magnitude a) = false /\
  gtb 0 (magnitude a * magnitude b) = false.
Proof.
  unfold gtb. rewrite !FloatAxioms.ltb_spec, mul_spec. split.
  - apply magnitude_spec_not_negative.
  - apply SFmul_not_negative; apply magnitude_spec_not_negative.
Qed.

(** ** A vector against itself *)

Lemma dot_from_self (vec : list number) :
  forall (i : nat) (acc : number),
    dot_from acc vec vec
    = reduce_from (fun sum val (_ : nat) => sum + val * val) i acc vec.
Proof.
  induction vec as [|x rest IH]; intros i acc; simpl.
  - reflexivity.
  - apply IH.
Qed.

Lemma SFdiv_not_negative (x y : spec_float) :
  SFltb x (S754_zero false) = false /\ x <> S754_zero true ->
  SFltb y (S754_zero false) = false ->
  y <> S754_zero true ->
  SFltb (SFdiv prec emax x y) (S754_zero false) = false.
Proof.
  intros [Hx Hx'] Hy Hy'.
  destruct x as [[]|[]| |[] mx ex], y as [[]|[]| |[] my ey];
    simpl in *; try discriminate; try congruence; try reflexivity.
  destruct (SFdiv_core_binary prec emax (Z.pos mx) ex (Z.pos my) ey)
    as [[mz ez] lz].
  apply binary_round_aux_not_negative.
Qed.

Lemma SFmul_not_negative_zero (x y : spec_float) :
  SFltb x (S754_zero false) = false /\ x <> S754_zero true ->
  SFltb y (S754_zero false) = false /\ y <> S754_zero true ->
  SFmul prec emax x y <> S754_zero true.
Proof.
  intros [Hx Hx'] [Hy Hy'].
  destruct x as [[]|[]| |[] mx ex], y as [[]|[]| |[] my ey];
    simpl in *; try discriminate; try congruence.
  apply binary_round_aux_not_negative.
Qed.

(** X22. The similarity of a vector to itself is its sum of squares
    divided by the square of its magnitude, the same fold serving as
    dot product; it is never negative (it is not-a-number for a vector
    of norm zero). *)
Theorem self_similarity_not_negative (a : list number) :
  cosineSimilarity a a = sumOfSquares a / (magnitude a * magnitude a) /\
  gtb 0 (cosineSimilarity a a) = false.
Proof.
  assert (Hself : cosineSimilarity a a
                  = sumOfSquares a / (magnitude a * magnitude a)).
  { unfold cosineSimilarity. rewrite dotProduct_dot_from.
    now rewrite (dot_from_self a 0 0). }
  split; [exact Hself|].
  rewrite Hself. unfold gtb.
  rewrite FloatAxioms.ltb_spec, div_spec, mul_spec.
  apply SFdiv_not_negative.
  - apply sumOfSquares_not_negative. split; [reflexivity | discriminate].
  - apply SFmul_not_negative; apply magnitude_spec_not_negative.
  - apply SFmul_not_negative_zero; apply magnitude_spec_not_negative.
Qed.

End VectorMathMore.

(* ================================================================== *)
(** * Further facts about the scan *)
(* ================================================================== *)

Module RetrievalMore.

Lemma SFltb_above_neg_infinity (h x : spec_float) :
  SFltb h x = true -> SFltb (S754_infinity true) x = true.
Proof.
  unfold SFltb.
  destruct h as [[]|[]| |[] mh eh], x as [[]|[]| |[] mx ex]; simpl;
    intros H; try reflexivity; try discriminate H.
Qed.

(** What exceeds anything exceeds negative infinity. *)
Lemma gtb_above_neg_infinity (h x : number) :
  gtb x h = true -> gtb x neg_infinity = true.
Proof.
  unfold gtb. rewrite !FloatAxioms.ltb_spec. apply SFltb_above_neg_infinity.
Qed.

(** A run of the callback from the initial variables ends with them, or
    with a scanned record and its score, greater than negative
    infinity. *)
Lemma fold_pick_above (q : list number) (docs : list Doc) :
  forall vars : Vars,
    fold_left (pick q) docs vars = vars \/
    exists doc : Doc,
      In doc docs /\
      fold_left (pick q) docs vars = (Some doc, score q doc) /\
      gtb (score q doc) neg_infinity = true.
Proof.
  induction docs as [|x rest IH]; intros vars; cbn [fold_left].
  - now left.
  - destruct (IH (pick q vars x)) as [Hsame | (doc & Hin & Hrun & Habove)].
    + rewrite Hsame. unfold pick.
      destruct (gtb (score q x) (snd vars)) eqn:Hgt; [right | now left].
      exists x. repeat split; [now left |].
      exact (gtb_above_neg_infinity _ _ Hgt).
    + right. exists doc. repeat split; auto. now right.
Qed.

(** Whatever the scan ends with as [bestMatch] is a scanned record,
    held with its own score; that score is above negative infinity and
    no scanned record exceeds it. *)
Lemma scan_selected_sound (vecA : option (list number)) (docs : list Doc)
      (doc : Doc) (s : number) :
  scan vecA docs = Returned (Some doc, s) ->
  exists q : list number,
    vecA = Some q /\ In doc docs /\ s = score q doc /\
    gtb s neg_infinity = true /\
    forall other, In other docs -> gtb (score q other) s = false.
Proof.
  destruct vecA as [q|].
  - rewrite scan_fold. intros H. injection H as H. exists q.
    destruct (fold_pick_invariant q docs) as [Hbound _].
    destruct (fold_pick_above q docs initial) as [Hsame | (d & Hin & Hrun & Habove)].
    + rewrite Hsame in H. discriminate H.
    + rewrite Hrun in H. injection H as -> <-.
      rewrite Hrun in Hbound. auto.
  - destruct docs as [|x rest]; simpl; discriminate.
Qed.

(** A scan that ends with [bestMatch] unset has met no record scoring
    above negative infinity, and had a query embedding unless there was
    nothing to scan. *)
Lemma scan_unset_bound (vecA : option (list number)) (docs : list Doc)
      (s : number) :
  scan vecA docs = Returned (None, s) ->
  docs = [] \/
  exists q, vecA = Some q /\
            forall doc, In doc docs -> gtb (score q doc) neg_infinity = false.
Proof.
  destruct vecA as [q|].
  - rewrite scan_fold. intros H. injection H as H. right. exists q.
    split; [reflexivity|].
    destruct (fold_pick_invariant q docs) as [Hbound Hbest].
    rewrite H in Hbound, Hbest. cbn [fst snd] in *. now subst s.
  - destruct docs as [|x rest]; [now left | discriminate].
Qed.

(** X3. With the query embedding there, the scan ends with [bestMatch]
    unset exactly when no scanned record has a similarity above
    negative infinity: every one is not-a-number or negative
    infinity. *)
Theorem scan_unset_iff_no_candidate (q : list number) (docs : list Doc) :
  scan (Some q) docs = Returned (None, neg_infinity) <->
  forall doc, In doc docs -> gtb (score q doc) neg_infinity = false.
Proof.
  split.
  - rewrite scan_fold. intros H. injection H as H.
    destruct (fold_pick_invariant q docs) as [Hbound _].
    rewrite H in Hbound. exact Hbound.
  - apply scan_none.
Qed.

(** X4. Scanning one more record after a scan: the variables move to the
    new record exactly when its similarity is strictly greater than the
    score held, and stay as they were otherwise. *)
Theorem scan_one_more (q : list number) (docs : list Doc) (doc : Doc)
        (bestMatch : option Doc) (s : number) :
  scan (Some q) docs = Returned (bestMatch, s) ->
  scan (Some q) (docs ++ [doc]) =
  Returned (if gtb (score q doc) s then (Some doc, score q doc)
            else (bestMatch, s)).
Proof.
  rewrite !scan_fold, fold_left_app. intros H. injection H as ->.
  reflexivity.
Qed.

Lemma scan_one_more_witness :
  let a := {| documentName := "a"; embedding := [0; 1]; content := "" |} in
  let b := {| documentName := "b"; embedding := [1; 1]; content := "" |} in
  scan (Some [1; 0]) ([a] ++ [b]) =
  Returned (if gtb (score [1; 0] b) 0 then (Some b, score [1; 0] b)
            else (Some a, 0)).
Proof.
  intros a b.
  apply (scan_one_more [1; 0] [a] b (Some a) 0). reflexivity.
Defined.

(** A record that does not score above negative infinity leaves the
    variables as they are, whatever they hold. *)
Lemma pick_ignores (q : list number) (vars : Vars) (doc : Doc) :
  gtb (score q doc) neg_infinity = false -> pick q vars doc = vars.
Proof.
  intros Hlow. unfold pick.
  destruct (gtb (score q doc) (snd vars)) eqn:Hgt; [|reflexivity].
  apply gtb_above_neg_infinity in Hgt. rewrite Hlow in Hgt. discriminate Hgt.
Qed.

Lemma fold_pick_filter (q : list number) (docs : list Doc) :
  forall vars : Vars,
    fold_left (pick q) docs vars
    = fold_left (pick q)
                (filter (fun doc => gtb (score q doc) neg_infinity) docs) vars.
Proof.
  induction docs as [|x rest IH]; intros vars; cbn [fold_left filter].
  - reflexivity.
  - destruct (gtb (score q x) neg_infinity) eqn:Hx; cbn [fold_left].
    + apply IH.
    + rewrite (pick_ignores q vars x Hx). apply IH.
Qed.

(** X23. Records whose similarity is not-a-number or negative infinity
    have no influence on the scan: it ends with the same record and the
    same score as a scan of the collection without them. *)
Theorem scan_ignores_unscored (q : list number) (docs : list Doc) :
  scan (Some q) docs
  = scan (Some q) (filter (fun doc => gtb (score q doc) neg_infinity) docs).
Proof. rewrite !scan_fold. f_equal. apply fold_pick_filter. Qed.

End RetrievalMore.

(* ================================================================== *)
(** * Further facts about [POST /query] *)
(* ================================================================== *)

Module QueryMore.

Import QueryJs QueryJsFacts RetrievalMore.
Local Open Scope string_scope.
Local Open Scope list_scope.

(** Opens a handler up to the outcomes of its collaborators. *)
Ltac open_handler :=
  unfold upload, query, EarlierServer.query, try_catch, bind, call, find,
    save, ret in *.

(** Splits [POST /query] along the outcomes of its collaborators, in
    the order it calls them. *)
Ltac query_cases w db :=
  destruct (featureExtraction w _) as [qe|?] eqn:Hembed;
  cbn beta iota zeta;
  [ destruct (findFails w) eqn:Hfind; cbn beta iota zeta;
    [ | destruct (scan _ db) as [[[best|] hi]|?] eqn:Hscan; cbn beta iota zeta;
        [ destruct (chatCompletions w _) as [[|first others]|?] eqn:Hchat;
          cbn beta iota zeta
        | | ] ]
  | ].

(** X6. [POST /query] always answers, with status 200, 400 or 500, and
    leaves the collection exactly as it found it, whatever its
    collaborators do. *)
Theorem query_answers_and_only_reads (w : World) (queryText : option string)
        (db : collection) :
  exists resp : Response,
    query w queryText db = (Returned resp, db) /\
    (status resp = 200 \/ status resp = 400 \/ status resp = 500)%nat.
Proof.
  open_handler.
  destruct queryText as [[|c text]|]; cbn beta iota zeta;
    try (eexists; split; [reflexivity | cbn; auto]).
  query_cases w db; eexists; (split; [reflexivity | cbn; auto]).
Qed.

(** X8. An answer of [POST /query] that carries generated text is
    sound: it names a stored record, its score is that record's
    similarity to the first embedding returned for the query text, that
    score is above negative infinity and no stored record has a greater
    one, and the text is the first choice returned for the prompt built
    from that record's content and the query text. *)
Theorem query_match_is_sound (w : World) (text : string) (db db' : collection)
        (resp : Response) (answer : string) :
  query w (Some text) db = (Returned resp, db') ->
  response (body resp) = Some answer ->
  exists (queryEmbedding : list (list number)) (q : list number) (doc : Doc)
         (rest : list string),
    featureExtraction w (Some text) = Returned queryEmbedding /\
    nth_error queryEmbedding 0 = Some q /\
    In doc db /\
    chatCompletions w (prompt doc text) = Returned (answer :: rest) /\
    resp = match_found doc answer (score q doc) /\
    gtb (score q doc) neg_infinity = true /\
    forall other, In other db -> gtb (score q other) (score q doc) = false.
Proof.
  intros Hrun Hanswer. revert Hrun. open_handler.
  destruct text as [|c text]; cbn beta iota zeta.
  - intros Hrun. injection Hrun as <- _. discriminate Hanswer.
  - query_cases w db; intros Hrun; injection Hrun as <- _;
      try discriminate Hanswer.
    injection Hanswer as <-.
    destruct (scan_selected_sound _ _ _ _ Hscan)
      as (q & Hq & Hin & -> & Habove & Hbound).
    exists qe, q, best, others. auto 10.
Qed.

Lemma query_match_is_sound_witness :
  let doc := Samples.stored "report.pdf" [1; 0] "extracted text" in
  exists (queryEmbedding : list (list number)) (q : list number) (d : Doc)
         (rest : list string),
    featureExtraction (Samples.healthy [[1; 0]]) (Some "what is it about?")
    = Returned queryEmbedding /\
    nth_error queryEmbedding 0 = Some q /\
    In d [doc] /\
    chatCompletions (Samples.healthy [[1; 0]]) (prompt d "what is it about?")
    = Returned ("an answer" :: rest) /\
    match_found doc "an answer" 1 = match_found d "an answer" (score q d) /\
    gtb (score q d) neg_infinity = true /\
    forall other, In other [doc] -> gtb (score q other) (score q d) = false.
Proof.
  intros doc.
  apply (query_match_is_sound
           (Samples.healthy [[1; 0]]) "what is it about?" [doc] [doc]
           (match_found doc "an answer" 1) "an answer");
    reflexivity.
Defined.

(** X9. When the provider returns an empty array for the query text,
    [queryEmbedding[0]] is [undefined]: over an empty collection the
    answer is still "No match found", and over any other collection the
    first comparison throws and the answer is 500. *)
Theorem query_without_query_embedding (w : World) (text : string)
        (db : collection) :
  text <> "" ->
  featureExtraction w (Some text) = Returned [] ->
  findFails w = false ->
  query w (Some text) db =
  (Returned (match db with
             | [] => no_match neg_infinity
             | _ :: _ => query_failed
             end), db).
Proof.
  intros Htext Hembed Hfind.
  destruct text as [|c text]; [now elim Htext|].
  destruct db as [|doc rest]; run_handler.
Qed.

Lemma query_without_query_embedding_witness :
  let doc := Samples.stored "report.pdf" [1; 0] "extracted text" in
  query (Samples.healthy []) (Some "what is it about?") [doc] =
  (Returned query_failed, [doc]).
Proof.
  intros doc.
  apply (query_without_query_embedding
           (Samples.healthy []) "what is it about?" [doc]);
    [discriminate | reflexivity | reflexivity].
Defined.

(** X10. A completion that returns no choice fails the request like one
    that throws: reading [choices[0].message] throws, and the answer is
    500 without the match. *)
Theorem query_without_choices (w : World) (text : string) (db : collection)
        (queryEmbedding : list (list number)) (doc : Doc) (s : number) :
  text <> "" ->
  featureExtraction w (Some text) = Returned queryEmbedding ->
  findFails w = false ->
  scan (nth_error queryEmbedding 0) db = Returned (Some doc, s) ->
  chatCompletions w (prompt doc text) = Returned [] ->
  query w (Some text) db = (Returned query_failed, db).
Proof.
  intros Htext Hembed Hfind Hscan Hchat.
  destruct text as [|c text]; [now elim Htext|].
  run_handler.
Qed.

Lemma query_without_choices_witness :
  let doc := Samples.stored "report.pdf" [1; 0] "extracted text" in
  query (MoreSamples.no_choices [[1; 0]]) (Some "what is it about?") [doc] =
  (Returned query_failed, [doc]).
Proof.
  intros doc.
  apply (query_without_choices
           (MoreSamples.no_choices [[1; 0]]) "what is it about?" [doc]
           [[1; 0]] doc 1);
    [discriminate | reflexivity ..].
Defined.

(** X11. With a query text, [POST /query] answers "No match found"
    exactly when the embedding call and [find] succeed and the
    collection is empty or holds no record whose similarity to the
    query embedding is above negative infinity. *)
Theorem query_no_match_iff (w : World) (text : string) (db : collection) :
  text <> "" ->
  query w (Some text) db = (Returned (no_match neg_infinity), db) <->
  exists queryEmbedding,
    featureExtraction w (Some text) = Returned queryEmbedding /\
    findFails w = false /\
    (db = [] \/
     exists q, nth_error queryEmbedding 0 = Some q /\
               forall doc, In doc db ->
                           gtb (score q doc) neg_infinity = false).
Proof.
  intros Htext. split.
  - destruct text as [|c text]; [now elim Htext|].
    open_handler. query_cases w db; intros Hrun;
      try (injection Hrun as Hrun; discriminate Hrun).
    exists qe. repeat split.
    exact (scan_unset_bound _ _ _ Hscan).
  - intros (queryEmbedding & Hembed & Hfind & Hdb).
    apply query_unset with (queryEmbedding := queryEmbedding); auto.
    destruct Hdb as [-> | (q & -> & Hnone)]; [reflexivity |].
    now apply scan_none.
Qed.

Lemma query_no_match_iff_witness :
  query (Samples.healthy [[1; 0]]) (Some "anything stored?") [] =
  (Returned (no_match neg_infinity), []) <->
  exists queryEmbedding,
    featureExtraction (Samples.healthy [[1; 0]]) (Some "anything stored?")
    = Returned queryEmbedding /\
    findFails (Samples.healthy [[1; 0]]) = false /\
    (@nil Doc = [] \/
     exists q, nth_error queryEmbedding 0 = Some q /\
               forall doc, In doc [] ->
                           gtb (score q doc) neg_infinity = false).
Proof.
  apply (query_no_match_iff (Samples.healthy [[1; 0]]) "anything stored?" []).
  discriminate.
Defined.

End QueryMore.

(* ================================================================== *)
(** * Further facts about [POST /upload] *)
(* ================================================================== *)

Module UploadMore.

Import QueryJs QueryJsFacts RetrievalMore.
Local Open Scope string_scope.
Local Open Scope list_scope.

(** Splits [POST /upload] along the outcomes of its collaborators, in
    the order it calls them. *)
Ltac upload_cases w :=
  destruct (readFileSync w _) as [dataBuffer|?] eqn:Hread; cbn beta iota zeta;
  [ destruct (pdfParse w _) as [extractedText|?] eqn:Hparse;
    cbn beta iota zeta;
    [ destruct (unlinkSync w _) as [[]|?] eqn:Hunlink; cbn beta iota zeta;
      [ destruct (featureExtraction w _) as [embeddings|?] eqn:Hembed;
        cbn beta iota zeta;
        [ destruct (saveFails w _) eqn:Hsave; cbn beta iota zeta | ]
      | ]
    | ]
  | ].

(** X12. [POST /upload] always answers, with status 201, 400 or 500. It
    answers 201 exactly when it has appended one record at the end of
    the collection; with any other status the collection is what it
    was. Records already stored are never changed, moved or removed. *)
Theorem upload_appends_or_leaves (w : World) (file : option File)
        (db : collection) :
  exists (resp : Response) (db' : collection),
    upload w file db = (Returned resp, db') /\
    (status resp = 201 \/ status resp = 400 \/ status resp = 500)%nat /\
    ((status resp = 201%nat /\ exists doc, db' = db ++ [doc]) \/
     (status resp <> 201%nat /\ db' = db)).
Proof.
  unfold upload, try_catch, bind, call, save, ret.
  destruct file as [f|]; cbn beta iota zeta.
  - upload_cases w;
      try match goal with
          | e : exn |- _ => destruct e
          end;
      eexists; eexists; (split; [reflexivity |]); cbn;
        (split; [auto |]);
        first [ right; split; [discriminate | reflexivity]
              | left; split; [reflexivity | eexists; reflexivity] ].
  - eexists; eexists; (split; [reflexivity |]); cbn. split; [auto |].
    right. split; [discriminate | reflexivity].
Qed.

(** X13. [POST /upload] answers 201 exactly when a file was uploaded and
    every step succeeded: reading it, parsing it, deleting it,
    embedding the extracted text and saving the record. *)
Theorem upload_201_iff_all_succeed (w : World) (file : option File)
        (db : collection) :
  (exists resp db', upload w file db = (Returned resp, db') /\
                    status resp = 201%nat) <->
  exists (f : File) (dataBuffer extractedText : string)
         (embeddings : list (list number)),
    file = Some f /\
    readFileSync w (path_join (uploadDir w) (filename f)) = Returned dataBuffer /\
    pdfParse w dataBuffer = Returned extractedText /\
    unlinkSync w (path_join (uploadDir w) (filename f)) = Returned tt /\
    featureExtraction w (Some extractedText) = Returned embeddings /\
    saveFails w {| documentName := filename f;
                   embedding := castNumbers (nth_error embeddings 0);
                   content := extractedText |} = false.
Proof.
  split.
  - intros (resp & db' & Hrun & Hstatus). revert Hrun.
    unfold upload, try_catch, bind, call, save, ret.
    destruct file as [f|]; cbn beta iota zeta.
    + upload_cases w;
        try match goal with
            | e : exn |- _ => destruct e
            end;
        intros Hrun; injection Hrun as <- _; try discriminate Hstatus.
      exists f, dataBuffer, extractedText, embeddings. auto 10.
    + intros Hrun. injection Hrun as <- _. discriminate Hstatus.
  - intros (f & dataBuffer & extractedText & embeddings
            & -> & Hread & Hparse & Hunlink & Hembed & Hsave).
    eexists. eexists. split.
    + exact (upload_saved w f db dataBuffer extractedText embeddings
                          Hread Hparse Hunlink Hembed Hsave).
    + reflexivity.
Qed.

(** A record with an empty embedding scores not-a-number against every
    query, so no scan ends with it. *)
Lemma empty_embedding_never_selected (vecA : option (list number))
      (docs : list Doc) (doc : Doc) (s : number) :
  embedding doc = [] -> scan vecA docs <> Returned (Some doc, s).
Proof.
  intros Hempty Hscan.
  destruct (scan_selected_sound _ _ _ _ Hscan) as (q & _ & _ & -> & Habove & _).
  unfold score in Habove.
  rewrite Hempty, cosineSimilarity_zero_r in Habove by reflexivity.
  rewrite gtb_nan_l in Habove. discriminate Habove.
Qed.

(** X14. When the provider answers an upload with an empty array, the
    upload is still answered 201 and the record is stored with an empty
    embedding; no query ever selects that record afterwards. *)
Theorem upload_without_embedding_is_unreachable
        (w : World) (f : File) (db : collection)
        (dataBuffer extractedText : string) :
  let filePath := path_join (uploadDir w) (filename f) in
  let newEmbedding := {| documentName := filename f;
                         embedding := [];
                         content := extractedText |} in
  readFileSync w filePath = Returned dataBuffer ->
  pdfParse w dataBuffer = Returned extractedText ->
  unlinkSync w filePath = Returned tt ->
  featureExtraction w (Some extractedText) = Returned [] ->
  saveFails w newEmbedding = false ->
  upload w (Some f) db =
  (Returned (json 201 "Embedding saved successfully"), db ++ [newEmbedding]) /\
  forall vecA docs s, scan vecA docs <> Returned (Some newEmbedding, s).
Proof.
  intros filePath newEmbedding Hread Hparse Hunlink Hembed Hsave. split.
  - now apply (upload_saved w f db dataBuffer extractedText []).
  - intros vecA docs s. now apply empty_embedding_never_selected.
Qed.

Lemma upload_without_embedding_is_unreachable_witness :
  let new := Samples.stored "report.pdf" [] "extracted text" in
  upload (Samples.healthy []) (Some Samples.report) [] =
  (Returned (json 201 "Embedding saved successfully"), [] ++ [new]) /\
  forall vecA docs s, scan vecA docs <> Returned (Some new, s).
Proof.
  intros new.
  apply (upload_without_embedding_is_unreachable
           (Samples.healthy []) Samples.report [] "%PDF-1.4" "extracted text");
    reflexivity.
Defined.

(** X15. Upload, then query. After a successful upload, a query whose
    embedding scores the new record strictly above the best score over
    the records stored before is answered with the new record, its
    score, and the text generated from its content. *)
Theorem upload_then_query_selects_new
        (w : World) (f : File) (db : collection)
        (dataBuffer extractedText : string) (embeddings : list (list number))
        (text : string) (queryEmbedding : list (list number))
        (q : list number) (bestMatch : option Doc) (s : number)
        (answer : string) (rest : list string) :
  let filePath := path_join (uploadDir w) (filename f) in
  let newEmbedding := {| documentName := filename f;
                         embedding := castNumbers (nth_error embeddings 0);
                         content := extractedText |} in
  readFileSync w filePath = Returned dataBuffer ->
  pdfParse w dataBuffer = Returned extractedText ->
  unlinkSync w filePath = Returned tt ->
  featureExtraction w (Some extractedText) = Returned embeddings ->
  saveFails w newEmbedding = false ->
  text <> "" ->
  featureExtraction w (Some text) = Returned queryEmbedding ->
  nth_error queryEmbedding 0 = Some q ->
  findFails w = false ->
  scan (Some q) db = Returned (bestMatch, s) ->
  gtb (score q newEmbedding) s = true ->
  chatCompletions w (prompt newEmbedding text) = Returned (answer :: rest) ->
  exists db',
    upload w (Some f) db =
    (Returned (json 201 "Embedding saved successfully"), db') /\
    query w (Some text) db' =
    (Returned (match_found newEmbedding answer (score q newEmbedding)), db').
Proof.
  intros filePath newEmbedding Hread Hparse Hunlink Hembed Hsave
         Htext Hquery Hfirst Hfind Hscan Hgt Hchat.
  exists (db ++ [newEmbedding]). split.
  - now apply upload_saved with (dataBuffer := dataBuffer).
  - assert (Hnew : scan (nth_error queryEmbedding 0) (db ++ [newEmbedding])
                   = Returned (Some newEmbedding, score q newEmbedding)).
    { rewrite Hfirst. rewrite scan_fold in *. injection Hscan as Hscan.
      rewrite fold_left_app, Hscan. cbn [fold_left]. unfold pick.
      cbn [snd]. now rewrite Hgt. }
    destruct text as [|c text]; [now elim Htext|].
    unfold query, try_catch, bind, call, find, ret.
    rewrite Hquery, Hfind, Hnew. cbn beta iota zeta. now rewrite Hchat.
Qed.

Lemma upload_then_query_selects_new_witness :
  let new := Samples.stored "report.pdf" [1; 0] "extracted text" in
  exists db',
    upload (Samples.healthy [[1; 0]]) (Some Samples.report) [] =
    (Returned (json 201 "Embedding saved successfully"), db') /\
    query (Samples.healthy [[1; 0]]) (Some "what is it about?") db' =
    (Returned (match_found new "an answer" (score [1; 0] new)), db').
Proof.
  intros new.
  apply (upload_then_query_selects_new
           (Samples.healthy [[1; 0]]) Samples.report []
           "%PDF-1.4" "extracted text" [[1; 0]]
           "what is it about?" [[1; 0]] [1; 0] None neg_infinity
           "an answer" []);
    try reflexivity.
  discriminate.
Defined.

End UploadMore.

(* ================================================================== *)
(** * Further facts about the earlier server *)
(* ================================================================== *)

Module EarlierMore.

Import QueryJs QueryJsFacts RetrievalMore.
Local Open Scope string_scope.
Local Open Scope list_scope.

(** Splits the earlier [POST /query] along the outcomes of its
    collaborators. *)
Ltac earlier_cases w db :=
  destruct (featureExtraction w _) as [qe|?] eqn:Hembed; cbn beta iota zeta;
  [ destruct (findFails w) eqn:Hfind; cbn beta iota zeta;
    [ | destruct (scan _ db) as [[[best|] hi]|?] eqn:Hscan;
        cbn beta iota zeta ]
  | ].

(** X16. The earlier [POST /query] always answers, with status 200 or
    500 and never 400, whether or not a query text was sent, and leaves
    the collection as it found it. *)
Theorem earlier_query_answers_and_only_reads
        (w : World) (queryText : option string) (db : collection) :
  exists resp : Response,
    EarlierServer.query w queryText db = (Returned resp, db) /\
    (status resp = 200 \/ status resp = 500)%nat.
Proof.
  unfold EarlierServer.query, try_catch, bind, call, find, ret.
  earlier_cases w db; eexists; (split; [reflexivity | cbn; auto]).
Qed.

(** X17. Once the embedding call and [find] have succeeded, the earlier
    [POST /query] answers 500 exactly when no stored record has a
    similarity to the query embedding above negative infinity: over an
    empty collection, and also over records that all score
    not-a-number. *)
Theorem earlier_query_fails_iff_no_candidate
        (w : World) (queryText : option string) (db : collection)
        (queryEmbedding : list (list number)) (q : list number) :
  featureExtraction w queryText = Returned queryEmbedding ->
  nth_error queryEmbedding 0 = Some q ->
  findFails w = false ->
  EarlierServer.query w queryText db = (Returned query_failed, db) <->
  forall doc, In doc db -> gtb (score q doc) neg_infinity = false.
Proof.
  intros Hembed Hfirst Hfind. split.
  - unfold EarlierServer.query, try_catch, bind, call, find, ret.
    rewrite Hembed, Hfind, Hfirst. cbn beta iota zeta.
    rewrite scan_fold. cbn beta iota zeta.
    destruct (fold_left (pick q) db initial) as [[best|] hi] eqn:Hrun;
      cbn beta iota zeta.
    + intros H. injection H as H. discriminate H.
    + intros _.
      destruct (fold_pick_invariant q db) as [Hbound Hbest].
      rewrite Hrun in Hbound, Hbest. cbn [fst snd] in *. now subst hi.
  - intros Hnone.
    apply (EarlierServerFacts.earlier_query_unset
             w queryText db queryEmbedding neg_infinity Hembed Hfind).
    rewrite Hfirst. now apply scan_none.
Qed.

Lemma earlier_query_fails_iff_no_candidate_witness :
  let zero := Samples.stored "blank.pdf" [0; 0] "" in
  EarlierServer.query (Samples.healthy [[1; 0]]) (Some "anything?") [zero]
  = (Returned query_failed, [zero]) <->
  forall doc, In doc [zero] -> gtb (score [1; 0] doc) neg_infinity = false.
Proof.
  intros zero.
  apply (earlier_query_fails_iff_no_candidate
           (Samples.healthy [[1; 0]]) (Some "anything?") [zero]
           [[1; 0]] [1; 0]);
    reflexivity.
Defined.

(** X18. The two servers agree on the match: whenever [POST /query] of
    [query.js] answers with a matched record, the earlier server, in the
    same world and over the same collection, answers 200 with the same
    message and the same score (and no generated text). *)
Theorem servers_agree_on_match
        (w : World) (text : string) (db db' : collection)
        (doc : Doc) (answer : string) (s : number) :
  query w (Some text) db = (Returned (match_found doc answer s), db') ->
  EarlierServer.query w (Some text) db =
  (Returned {| status := 200;
               body := {| message := "Closest match for your query: "
                                       ++ documentName doc;
                          response := None;
                          similarity := Some s |} |}, db).
Proof.
  unfold query, EarlierServer.query, try_catch, bind, call, find, ret.
  destruct text as [|c text]; cbn beta iota zeta.
  - intros H. injection H as H. discriminate H.
  - earlier_cases w db; try (intros H; injection H as H; discriminate H).
    destruct (chatCompletions w _) as [[|first others]|?];
      cbn beta iota zeta; intros H;
      try (injection H as H; discriminate H).
    injection H as Hname _ Hs _. cbn. now rewrite Hname, Hs.
Qed.

Lemma servers_agree_on_match_witness :
  let doc := Samples.stored "report.pdf" [1; 0] "extracted text" in
  EarlierServer.query (Samples.healthy [[1; 0]]) (Some "what?") [doc] =
  (Returned {| status := 200;
               body := {| message := "Closest match for your query: "
                                       ++ documentName doc;
                          response := None;
                          similarity := Some 1 |} |}, [doc]).
Proof.
  intros doc.
  apply (servers_agree_on_match
           (Samples.healthy [[1; 0]]) "what?" [doc] [doc] doc "an answer" 1).
  reflexivity.
Defined.

End EarlierMore.

(* ================================================================== *)
(** * Facts about the movie script *)
(* ================================================================== *)

Module MovieScriptFacts.

Import MovieScript.
Local Open Scope string_scope.
Local Open Scope list_scope.

Ltac open_script :=
  unfold storeMovieWithEmbedding, searchMovies, createEmbedding, catching,
    andThen, request, done, print, saveMovie, runSearch.

(** X19. [storeMovieWithEmbedding] does not depend on the embedding
    request succeeding: it throws only when saving throws, and otherwise
    appends exactly one movie, whose embeddings are the first element of
    the response, or the empty array when the request threw or returned
    nothing. *)
Theorem store_movie_outcome (s : Services) (title description : string)
        (genre : list string) (year : number) (st : State) :
  let movie :=
    {| title := title; description := description; genre := genre;
       year := year;
       embeddings := match post s (title ++ " " ++ description) with
                     | Returned (first :: _) => first
                     | _ => []
                     end |} in
  exists st' : State,
    storeMovieWithEmbedding s title description genre year st =
    (if saveMovieFails s movie then Thrown OtherError else Returned tt, st') /\
    movies st' =
    (if saveMovieFails s movie then movies st else movies st ++ [movie]).
Proof.
  intros movie. subst movie. open_script.
  destruct (post s (title ++ " " ++ description)) as [[|first others]|e];
    cbn beta iota zeta; cbn [nth_error QueryJs.castNumbers movies console];
    destruct (saveMovieFails s _); eexists; split; reflexivity.
Qed.

(** X20. [searchMovies] never changes the collection and never removes
    a console line, and it throws only when the search itself throws. *)
Theorem search_only_reads (s : Services) (queryText : string) (st : State) :
  exists (result : outcome unit) (lines : list line),
    searchMovies s queryText st =
    (result, {| movies := movies st; console := console st ++ lines |}) /\
    (result = Returned tt \/
     exists vector e, aggregate s vector (movies st) = Thrown e).
Proof.
  open_script.
  destruct (post s queryText) as [[|first others]|e]; cbn beta iota zeta;
    cbn [nth_error movies console].
  - exists (Returned tt), [embedding_not_generated]. split; auto.
  - destruct (aggregate s first (movies st)) as [results|e] eqn:Hsearch.
    + exists (Returned tt), [search_results results]. split; auto.
    + exists (Thrown e), []. rewrite app_nil_r. split; [now destruct st|].
      right. eauto.
  - exists (Returned tt),
      [error_generating_embedding; embedding_not_generated].
    rewrite <- app_assoc. split; auto.
Qed.

(** X21. When the embedding request throws, [searchMovies] returns
    normally without running the search: it prints the two error lines
    and nothing else, whatever the search would have given. *)
Theorem search_without_embedding (s : Services) (queryText : string)
        (st : State) (e : exn) :
  post s queryText = Thrown e ->
  searchMovies s queryText st =
  (Returned tt,
   {| movies := movies st;
      console := console st ++ [error_generating_embedding;
                                embedding_not_generated] |}).
Proof.
  intros Hpost. open_script. rewrite Hpost. cbn beta iota zeta.
  cbn [movies console]. now rewrite <- app_assoc.
Qed.

Lemma search_without_embedding_witness :
  searchMovies MoreSamples.endpoint_down "a sci-fi movie" MoreSamples.fresh =
  (Returned tt,
   {| movies := [];
      console := [] ++ [error_generating_embedding;
                        embedding_not_generated] |}).
Proof.
  apply (search_without_embedding
           MoreSamples.endpoint_down "a sci-fi movie" MoreSamples.fresh
           OtherError).
  reflexivity.
Defined.

End MovieScriptFacts.

(* ================================================================== *)
(** * Facts about what the caller receives *)
(* ================================================================== *)

Module WireFacts.

Import QueryJs QueryJsFacts Wire.
Local Open Scope string_scope.
Local Open Scope list_scope.

Lemma stringify_neg_infinity : stringify_number neg_infinity = JNull.
Proof. reflexivity. Qed.

(** A score the scan has selected is written as a number unless it is
    plus infinity. *)
Lemma stringify_finite (x : number) :
  is_finite x = true -> stringify_number x = JNumber x.
Proof. intros H. unfold stringify_number. now rewrite H. Qed.

(** C10, as stated, fails: over an empty collection the handler gives
    [res.json] a score of negative infinity, and the caller receives the
    field [similarity] with the value [null]. *)
Lemma no_match_reaches_caller_as_null :
  query (Samples.healthy [[1; 0]]) (Some "anything stored?") [] =
  (Returned (no_match neg_infinity), []) /\
  sent_similarity (sent_body (send (no_match neg_infinity))) = Some JNull /\
  Some JNull <> Some (JNumber neg_infinity).
Proof. repeat split. discriminate. Qed.

(** C10, amended. When the scan leaves [bestMatch] unset, the handler
    hands [res.json] the message "No match found" and a [similarity] of
    negative infinity, the value [highestSimilarity] started with; the
    response the caller receives has status 200, that message, no
    generated text, and the field [similarity] present with the value
    [null]. *)
Theorem no_match_sends_null_similarity (w : World) (text : string)
        (db : collection) (queryEmbedding : list (list number)) (s : number) :
  text <> "" ->
  featureExtraction w (Some text) = Returned queryEmbedding ->
  findFails w = false ->
  scan (nth_error queryEmbedding 0) db = Returned (None, s) ->
  exists resp : Response,
    query w (Some text) db = (Returned resp, db) /\
    similarity (body resp) = Some neg_infinity /\
    send resp =
    {| sent_status := 200;
       sent_body := {| sent_message := "No match found";
                       sent_response := None;
                       sent_similarity := Some JNull |} |}.
Proof.
  intros Htext Hembed Hfind Hscan.
  exists (no_match neg_infinity). split; [|split; reflexivity].
  rewrite (query_unset w text db queryEmbedding s Htext Hembed Hfind Hscan).
  now rewrite (RetrievalFacts.scan_unset_initial _ _ s Hscan).
Qed.

Lemma no_match_sends_null_similarity_witness :
  exists resp : Response,
    query (Samples.healthy [[1; 0]]) (Some "anything stored?") [] =
    (Returned resp, []) /\
    similarity (body resp) = Some neg_infinity /\
    send resp =
    {| sent_status := 200;
       sent_body := {| sent_message := "No match found";
                       sent_response := None;
                       sent_similarity := Some JNull |} |}.
Proof.
  apply (no_match_sends_null_similarity
           (Samples.healthy [[1; 0]]) "anything stored?" [] [[1; 0]]
           neg_infinity).
  - discriminate.
  - reflexivity.
  - reflexivity.
  - reflexivity.
Defined.

(** C6, as stated, fails: the provider answers with no vector at all,
    which is an embedding failure without a throw; the upload is
    answered 201 and a record with an empty embedding is added to the
    collection. *)
Lemma upload_no_vector_persists_record :
  let old := Samples.stored "old.pdf" [1; 0] "old text" in
  featureExtraction (Samples.healthy []) (Some "extracted text") = Returned [] /\
  upload (Samples.healthy []) (Some Samples.report) [old] =
  (Returned (json 201 "Embedding saved successfully"),
   [old; Samples.stored "report.pdf" [] "extracted text"]).
Proof. split; reflexivity. Qed.

End WireFacts.
